(** * The admin dashboard screens: entity form, product page, setup page

    A shallow embedding of the billboard form (create / edit / delete
    screen), of the product page (server-side data loading) and of the
    setup page, followed by the properties of the specification that
    concern them.

    Handlers are [async] functions with [try / catch / finally]; they are
    embedded as finite trees of events ([Async.Prog]) so that a handler
    suspended at an [await] is a value the screen can hold while other user
    events arrive. *)

From stdpp Require Import gmap strings list fin_maps.

(* ===================================================================== *)
(** * Part I: definitions *)
(* ===================================================================== *)

(** ** JavaScript values and objects *)

(** A thrown value; only its presence matters to the handlers. *)
Definition Error := string.

Inductive JsVal :=
| JsUndefined
| JsNull
| JsBool (b : bool)
| JsNum (n : Z)
| JsStr (s : string).

(** A plain object is a finite map from property names to values.  A
    character of a [string] stands for one UTF-16 code unit, so that
    [String.length] is the [.length] of the JavaScript string. *)
Abbreviation JsObject := (gmap string JsVal).

(** Reading a property that is absent yields [undefined]. *)
Definition get_prop (o : JsObject) (key : string) : JsVal :=
  default JsUndefined (o !! key).

(** ** Asynchronous programs *)

Module Async.
Section Prog.
Context {E : Type -> Type}.

(** A program either returns, throws, or performs an event [ev] and goes
    on with its answer. *)
Inductive Prog (A : Type) : Type :=
| Ret (a : A)
| Throw (e : Error)
| Vis {X : Type} (ev : E X) (k : X -> Prog A).
Global Arguments Ret {A} a.
Global Arguments Throw {A} e.
Global Arguments Vis {A X} ev k.

Fixpoint bind {A B} (m : Prog A) (f : A -> Prog B) : Prog B :=
  match m with
  | Ret a => f a
  | Throw e => Throw e
  | Vis ev k => Vis ev (fun x => bind (k x) f)
  end.

(** [try { m } catch (e) { h e }] *)
Fixpoint try_catch {A} (m : Prog A) (h : Error -> Prog A) : Prog A :=
  match m with
  | Ret a => Ret a
  | Throw e => h e
  | Vis ev k => Vis ev (fun x => try_catch (k x) h)
  end.

(** [try { m } finally { f }]: [f] runs on both exits, and the
    completion of [m] is kept unless [f] itself throws. *)
Fixpoint try_finally {A} (m : Prog A) (f : Prog unit) : Prog A :=
  match m with
  | Ret a => bind f (fun _ => Ret a)
  | Throw e => bind f (fun _ => Throw e)
  | Vis ev k => Vis ev (fun x => try_finally (k x) f)
  end.

(** [try { m } catch (e) { h e } finally { f }] *)
Definition try_catch_finally {A} (m : Prog A) (h : Error -> Prog A)
    (f : Prog unit) : Prog A :=
  try_finally (try_catch m h) f.

(** A synchronous call. *)
Definition perform {X} (ev : E X) : Prog X := Vis ev Ret.

(** [await p]: the promise [p] settles as fulfilled ([inr]) or rejected
    ([inl]); a rejection is thrown at the [await]. *)
Definition await {X} (ev : E (Error + X)) : Prog X :=
  Vis ev (fun r => match r with inl e => Throw e | inr x => Ret x end).
End Prog.
Global Arguments Prog E A : clear implicits.

#[global] Instance Prog_ret {E} : MRet (Prog E) := fun A a => Ret a.
#[global] Instance Prog_bind {E} : MBind (Prog E) := fun A B f m => bind m f.
End Async.
Import Async.

(** ** Schema validation (zod) and the form resolver *)

Module Zod.
Inductive Issue :=
| invalid_type
| too_small (minimum : nat) (message : option string)
| too_big (maximum : nat) (message : option string)
| invalid_string (validation : string) (message : option string).

Inductive Check :=
| min (value : nat) (message : option string)
| max (value : nat) (message : option string)
| url (message : option string).

Definition Schema := JsVal -> list Issue + JsVal.

Section Platform.
(** [isURL s] holds when the platform's [new URL(s)] does not throw. *)
Variable isURL : string -> bool.

Definition run_check (c : Check) (data : string) : option Issue :=
  match c with
  | min n msg => if String.length data <? n then Some (too_small n msg) else None
  | max n msg => if n <? String.length data then Some (too_big n msg) else None
  | url msg => if isURL data then None else Some (invalid_string "url" msg)
  end.

(** [z.string()] followed by its checks, in the order they are chained. *)
Definition z_string (checks : list Check) : Schema := fun input =>
  match input with
  | JsStr data =>
      match omap (fun c => run_check c data) checks with
      | [] => inr (JsStr data)
      | issues => inl issues
      end
  | _ => inl [invalid_type]
  end.
End Platform.

(** [z.object(shape)]: every key of the shape is parsed from the property
    of that name; the output holds the keys of the shape only (unknown
    keys are stripped); issues carry the key as their path. *)
Fixpoint parse_shape (shape : list (string * Schema)) (input : JsObject)
    : list (string * Issue) * JsObject :=
  match shape with
  | [] => ([], ∅)
  | (key, schema) :: rest =>
      let '(issues, out) := parse_shape rest input in
      match schema (get_prop input key) with
      | inl own => (map (pair key) own ++ issues, out)
      | inr v => (issues, <[key := v]> out)
      end
  end.

Definition z_object (shape : list (string * Schema)) (input : JsObject)
    : list (string * Issue) + JsObject :=
  match parse_shape shape input with
  | ([], out) => inr out
  | (issues, _) => inl issues
  end.

(** [zodResolver(schema)]: the parsed data when the parse succeeds,
    otherwise the first issue of every field. *)
Definition zodResolver (schema : JsObject -> list (string * Issue) + JsObject)
    (values : JsObject) : gmap string Issue + JsObject :=
  match schema values with
  | inr data => inr data
  | inl issues => inl (list_to_map issues)
  end.
End Zod.

(** ** The billboard form *)

Module BillboardForm.

Record Billboard := {
  _id : string;
  label : string;
  imageUrl : string;
  userId : string;
}.

(** The object a [Billboard] is at run time. *)
Definition Billboard_object (b : Billboard) : JsObject :=
  <["_id" := JsStr (_id b)]>
    (<["label" := JsStr (label b)]>
       (<["imageUrl" := JsStr (imageUrl b)]>
          (<["userId" := JsStr (userId b)]> ∅))).

(** [useParams()] *)
Record Params := { storeId : string; billboardId : string }.

Inductive Method := POST | PATCH | DELETE.

Record Request := {
  method : Method;
  url : string;
  data : option JsObject;
}.

Record AxiosResponse := { status : Z }.

Definition Outcome : Type := Error + AxiosResponse.

(** The calls a handler makes that return at once. *)
Inductive Cmd :=
| SetLoading (b : bool)
| SetOpen (b : bool)
| RouterPush (href : string)
| RouterRefresh
| ToastSuccess (msg : string)
| ToastError (msg : string).

Inductive FormE : Type -> Type :=
| Sync (c : Cmd) : FormE unit
| Axios (r : Request) : FormE Outcome.

Definition setLoading (b : bool) : Prog FormE unit := perform (Sync (SetLoading b)).
Definition setOpen (b : bool) : Prog FormE unit := perform (Sync (SetOpen b)).
Definition router_push (href : string) : Prog FormE unit := perform (Sync (RouterPush href)).
Definition router_refresh : Prog FormE unit := perform (Sync RouterRefresh).
Definition toast_success (msg : string) : Prog FormE unit := perform (Sync (ToastSuccess msg)).
Definition toast_error (msg : string) : Prog FormE unit := perform (Sync (ToastError msg)).

Definition axios_post (u : string) (d : JsObject) : Prog FormE AxiosResponse :=
  await (Axios {| method := POST; url := u; data := Some d |}).
Definition axios_patch (u : string) (d : JsObject) : Prog FormE AxiosResponse :=
  await (Axios {| method := PATCH; url := u; data := Some d |}).
Definition axios_delete (u : string) : Prog FormE AxiosResponse :=
  await (Axios {| method := DELETE; url := u; data := None |}).

(** What the screen has done so far, oldest first. *)
Inductive Effect :=
| Call (c : Cmd)
| Http (r : Request).

(** A handler suspended at an [await] of a request. *)
Definition Task : Type := Request * (Outcome -> Prog FormE unit).

Record Screen := {
  loading : bool;                      (* useState(false) *)
  open : bool;                         (* useState(false) *)
  values : JsObject;                   (* the field values of useForm *)
  errors : gmap string Zod.Issue;      (* formState.errors *)
  log : list Effect;
  inflight : list Task;
}.

Definition with_loading (b : bool) (s : Screen) : Screen :=
  {| loading := b; open := open s; values := values s; errors := errors s;
     log := log s; inflight := inflight s |}.
Definition with_open (b : bool) (s : Screen) : Screen :=
  {| loading := loading s; open := b; values := values s; errors := errors s;
     log := log s; inflight := inflight s |}.
Definition with_values (v : JsObject) (s : Screen) : Screen :=
  {| loading := loading s; open := open s; values := v; errors := errors s;
     log := log s; inflight := inflight s |}.
Definition with_errors (e : gmap string Zod.Issue) (s : Screen) : Screen :=
  {| loading := loading s; open := open s; values := values s; errors := e;
     log := log s; inflight := inflight s |}.
Definition with_inflight (l : list Task) (s : Screen) : Screen :=
  {| loading := loading s; open := open s; values := values s; errors := errors s;
     log := log s; inflight := l |}.
Definition logged (e : Effect) (s : Screen) : Screen :=
  {| loading := loading s; open := open s; values := values s; errors := errors s;
     log := log s ++ [e]; inflight := inflight s |}.

Definition do_cmd (c : Cmd) (s : Screen) : Screen :=
  match c with
  | SetLoading b => with_loading b (logged (Call c) s)
  | SetOpen b => with_open b (logged (Call c) s)
  | _ => logged (Call c) s
  end.

(** Runs a handler until it returns or suspends at an [await]; the
    request is sent when the handler suspends.  A handler that ends by
    throwing leaves a rejected promise nobody observes. *)
Fixpoint run (p : Prog FormE unit) (s : Screen) : Screen :=
  match p with
  | Ret _ => s
  | Throw _ => s
  | Vis ev k =>
      match ev in FormE X return (X -> Prog FormE unit) -> Screen with
      | Sync c => fun k => run (k tt) (do_cmd c s)
      | Axios r => fun k =>
          let s' := logged (Http r) s in
          with_inflight (inflight s' ++ [(r, k)]) s'
      end k
  end.

(** The [i]-th request in flight settles with [o]: its handler resumes. *)
Definition resume (i : nat) (o : Outcome) (s : Screen) : Screen :=
  match inflight s !! i with
  | Some (_, k) => run (k o) (with_inflight (delete i (inflight s)) s)
  | None => s
  end.

(** Runs a handler to its end against a network that settles every
    request at once, [net] telling how. *)
Fixpoint complete (net : Request -> Outcome) (p : Prog FormE unit)
    (s : Screen) : Screen :=
  match p with
  | Ret _ => s
  | Throw _ => s
  | Vis ev k =>
      match ev in FormE X return (X -> Prog FormE unit) -> Screen with
      | Sync c => fun k => complete net (k tt) (do_cmd c s)
      | Axios r => fun k => complete net (k (net r)) (logged (Http r) s)
      end k
  end.

(** Modelled from the spec: the controls of the UI library ([Button],
    [Input], [ImageUpload], under components/ui) are missing; a control
    rendered with [disabled] set answers no user action ("button
    disabled"), otherwise it calls its handler. *)
Definition Control (disabled : bool) (handler : Screen -> Screen)
    (s : Screen) : Screen :=
  if disabled then s else handler s.

Section Modal.
Record AlertModalProps := {
  isOpen : bool;
  onClose : Screen -> Screen;
  onConfirm : Screen -> Screen;
  modal_loading : bool;
}.

Inductive ModalAction := Continue | Cancel.

(** Modelled from the spec: [AlertModal] (components/modals/alert-modal)
    is missing; it is the confirmation step that gates a destructive
    action: while [isOpen] it offers to go on, which calls [onConfirm]
    and is disabled while [loading], or to close, which calls
    [onClose]; while not [isOpen] it offers nothing. *)
Definition AlertModal (p : AlertModalProps) (a : ModalAction)
    (s : Screen) : Screen :=
  if isOpen p then
    match a with
    | Continue => Control (modal_loading p) (onConfirm p) s
    | Cancel => onClose p s
    end
  else s.
End Modal.

Definition do_cmds (cmds : list Cmd) (s : Screen) : Screen :=
  fold_left (fun s c => do_cmd c s) cmds s.

(** The requests of the persistence interface for billboards, "all
    scoped under a store-identifier path segment", and the route of the
    list of billboards. *)
Definition create_request (store : string) (d : JsObject) : Request :=
  {| method := POST; url := "/api/" +:+ store +:+ "/billboards"; data := Some d |}.
Definition update_request (store id : string) (d : JsObject) : Request :=
  {| method := PATCH; url := "/api/" +:+ store +:+ "/billboards/" +:+ id;
     data := Some d |}.
Definition delete_request (store id : string) : Request :=
  {| method := DELETE; url := "/api/" +:+ store +:+ "/billboards/" +:+ id;
     data := None |}.
Definition list_route (store : string) : string :=
  "/" +:+ store +:+ "/billboards".

(** The request a submission is to send for the fields [d]: a create in
    create mode, an update of the record of the route in edit mode. *)
Definition submit_request (initialData : option Billboard) (params : Params)
    (d : JsObject) : Request :=
  match initialData with
  | Some _ => update_request (storeId params) (billboardId params) d
  | None => create_request (storeId params) d
  end.

(** The screen is idle: not submitting, nothing in flight. *)
Definition idle (s : Screen) : Prop :=
  loading s = false /\ inflight s = [].

(** A suspended handler that, however its request settles, only makes
    synchronous calls, ends not submitting, and does not open the modal. *)
Definition finishing (k : Outcome -> Prog FormE unit) : Prop :=
  forall o s, exists cmds,
    run (k o) s = do_cmds cmds s /\
    loading (do_cmds cmds s) = false /\
    (open (do_cmds cmds s) = true -> open s = true).

(** Either idle, or submitting with exactly one request in flight. *)
Definition steady (s : Screen) : Prop :=
  idle s \/
  (loading s = true /\ exists r k, inflight s = [(r, k)] /\ finishing k).

(** Observations on a log. *)
Definition is_request (e : Effect) : bool :=
  match e with Http _ => true | Call _ => false end.
Definition is_navigation (e : Effect) : bool :=
  match e with Call (RouterPush _) => true | _ => false end.

Definition requests (l : list Effect) : list Effect := List.filter is_request l.
Definition navigations (l : list Effect) : list Effect := List.filter is_navigation l.

Inductive Field := label_field | imageUrl_field.

Definition field_name (f : Field) : string :=
  match f with label_field => "label" | imageUrl_field => "imageUrl" end.

(** What the user can make happen on the screen, and what the network
    can.  Every user event meets the view rendered from the state it
    finds: the state setters of a handler are committed before the next
    event is handled. *)
Inductive UiEvent :=
| SubmitClick
| TrashClick
| Modal (a : ModalAction)
| Change (f : Field) (v : string)
| Settled (i : nat) (o : Outcome).

Section Component.
Variable isURL : string -> bool.
Variable initialData : option Billboard.
Variable params : Params.

(** The zod schema of the form. *)
Definition formSchema : JsObject -> list (string * Zod.Issue) + JsObject :=
  Zod.z_object
    [("label", Zod.z_string isURL
                 [Zod.min 3 (Some "Store name is required, (min 3 characters).");
                  Zod.max 25 None]);
     ("imageUrl", Zod.z_string isURL [Zod.url None])].

Definition title : string :=
  if initialData is Some _ then "Edit Billboard" else "Craete a Billboard".
Definition description : string :=
  if initialData is Some _ then "Edit your Billboard" else "Add a new billboard".
Definition toastMessage : string :=
  if initialData is Some _ then "Billboard updated successfully"
  else "Billboard created successfully".
Definition action : string :=
  if initialData is Some _ then "Save Changes" else "Create".

(** [defaultValues: initialData || { label: '', imageUrl: '' }] *)
Definition defaultValues : JsObject :=
  match initialData with
  | Some b => Billboard_object b
  | None => <["label" := JsStr ""]> (<["imageUrl" := JsStr ""]> ∅)
  end.

(** Submit handler: creates the billboard, or updates the one of the
    route. *)
Definition onSubmit (data : JsObject) : Prog FormE unit :=
  try_catch_finally
    (setLoading true ;;
     (if initialData is Some _
      then axios_patch ("/api/" +:+ storeId params +:+ "/billboards/"
                          +:+ billboardId params) data
      else axios_post ("/api/" +:+ storeId params +:+ "/billboards") data) ;;
     router_push ("/" +:+ storeId params +:+ "/billboards") ;;
     router_refresh ;;
     toast_success toastMessage)
    (fun error => toast_error "Something went wrong.")
    (setLoading false).

(** Handler for deleting the billboard of the route. *)
Definition onDelete : Prog FormE unit :=
  try_catch_finally
    (setLoading true ;;
     axios_delete ("/api/" +:+ storeId params +:+ "/billboards/"
                     +:+ billboardId params) ;;
     router_push ("/" +:+ storeId params +:+ "/billboards") ;;
     router_refresh ;;
     toast_success "Billboard deleted successfully")
    (fun error =>
       toast_error "Make sure you deleted all categories using this billboard first")
    (setLoading false ;; setOpen false).

(** [form.handleSubmit(onValid)] of react-hook-form with the zod
    resolver: the field values go through the resolver; on errors they
    become [formState.errors] and [onValid] is not called, otherwise
    [onValid] is called with the resolver's data. *)
Definition handleSubmit (onValid : JsObject -> Prog FormE unit)
    (s : Screen) : Screen :=
  match Zod.zodResolver formSchema (values s) with
  | inl errs => with_errors errs s
  | inr parsed => run (onValid parsed) (with_errors ∅ s)
  end.

(** [field.onChange(v)] *)
Definition field_onChange (f : Field) (v : string) (s : Screen) : Screen :=
  with_values (<[field_name f := JsStr v]> (values s)) s.

(** [<FormMessage />] of a field shows the error of that field. *)
Definition FormMessage (f : Field) (s : Screen) : option Zod.Issue :=
  errors s !! field_name f.

(** The rendered tree, as the reaction of the screen to an event: the
    submit button of the form ([disabled={loading}], the form's
    [onSubmit] being [form.handleSubmit(onSubmit)]); the trash button
    (rendered when [initialData] is there, [disabled={loading}], opening
    the modal); the alert modal (open as [open] says, closing by
    [setOpen(false)], confirming by [onDelete]); the two fields
    ([disabled={loading}]); and the settling of a request. *)
Definition step (ev : UiEvent) (s : Screen) : Screen :=
  match ev with
  | SubmitClick => Control (loading s) (handleSubmit onSubmit) s
  | TrashClick =>
      if initialData is Some _ then Control (loading s) (run (setOpen true)) s else s
  | Modal a =>
      AlertModal {| isOpen := open s;
                    onClose := run (setOpen false);
                    onConfirm := run onDelete;
                    modal_loading := loading s |} a s
  | Change f v => Control (loading s) (field_onChange f v) s
  | Settled i o => resume i o s
  end.

Definition exec (evs : list UiEvent) (s : Screen) : Screen :=
  fold_left (fun s ev => step ev s) evs s.

(** The screen as mounted. *)
Definition mount : Screen :=
  {| loading := false; open := false; values := defaultValues;
     errors := ∅; log := []; inflight := [] |}.

(** What a step may be, apart from the two that send a request: the
    same screen, new errors, new values, or synchronous calls (of a
    click, or of a handler that resumes). *)
Inductive quiet_step (ev : UiEvent) (s : Screen) : Screen -> Prop :=
| quiet_none : quiet_step ev s s
| quiet_errors errs : quiet_step ev s (with_errors errs s)
| quiet_values v : quiet_step ev s (with_values v s)
| quiet_open :
    ev = TrashClick -> initialData <> None -> loading s = false ->
    quiet_step ev s (do_cmd (SetOpen true) s)
| quiet_close : quiet_step ev s (do_cmd (SetOpen false) s)
| quiet_resume r k o :
    inflight s = [(r, k)] -> finishing k ->
    quiet_step ev s (run (k o) (with_inflight [] s)).

Inductive sending_step (ev : UiEvent) (s : Screen) : Screen -> Prop :=
| sending_submit d k :
    ev = SubmitClick -> idle s -> Zod.zodResolver formSchema (values s) = inr d -> finishing k ->
    sending_step ev s
      (with_inflight [(submit_request initialData params d, k)]
         (logged (Http (submit_request initialData params d))
                 (do_cmd (SetLoading true) (with_errors ∅ s))))
| sending_delete k :
    ev = Modal Continue -> idle s -> open s = true -> finishing k ->
    sending_step ev s
      (with_inflight [(delete_request (storeId params) (billboardId params), k)]
         (logged (Http (delete_request (storeId params) (billboardId params)))
                 (do_cmd (SetLoading true) s))).

End Component.

End BillboardForm.

(** ** The backing store of billboards *)

Module BackingStore.
Import BillboardForm.

(** Modelled from the spec: the persistence endpoint and the list page
    of billboards are missing.  A record has an owning store; a record of
    another entity (a category) may reference a billboard by its
    identifier. *)
Record Stored := { owner : string; record : Billboard }.
Record Category := { category_id : string; category_billboardId : string }.
Record Db := { billboards : list Stored; categories : list Category }.

Definition is_record (store id : string) (st : Stored) : bool :=
  bool_decide (owner st = store) && bool_decide (_id (record st) = id).

Definition references (id : string) (c : Category) : bool :=
  bool_decide (category_billboardId c = id).

(** Modelled from the spec: the "delete" request for the record [id] of
    [store]: "rejected if other Records still reference it", in which
    case the record is "left intact"; otherwise the record is destroyed. *)
Definition delete_billboard (store id : string) (db : Db) : Outcome * Db :=
  if existsb (references id) (categories db)
  then (inl "referential integrity violation", db)
  else (inr {| status := 200 |},
        {| billboards := List.filter (fun st => negb (is_record store id st)) (billboards db);
           categories := categories db |}).

(** Modelled from the spec: the display row of a record, "identifier
    plus human-readable field projections". *)
Record BillboardColumn := { row_id : string; row_label : string }.

Definition display_row (b : Billboard) : BillboardColumn :=
  {| row_id := _id b; row_label := label b |}.

(** Modelled from the spec: a list fetch "loads all Records of the entity
    type for that store" and "maps each Record to a display row". *)
Definition list_fetch (store : string) (db : Db) : list BillboardColumn :=
  map (fun st => display_row (record st))
      (List.filter (fun st => bool_decide (owner st = store)) (billboards db)).
End BackingStore.

(** ** The product page *)

Module ProductPage.

(** A database identifier; [toString] is its text. *)
Record ObjectId := { toString : string }.

(** A JavaScript number; the page only copies it. *)
Definition number := Z.

(** The documents as the queries return them.  The three references of a
    product are typed [any] and need not be there: [None] stands for a
    reference that is [undefined] or [null]. *)
Module FoundProduct.
Record t := {
  _id : ObjectId; name : string; price : number;
  isFeatured : bool; isArchived : bool;
  categoryId : option ObjectId; sizeId : option ObjectId;
  colorId : option ObjectId;
  images : list string;
}.
End FoundProduct.
Module RawCategory.
Record t := { _id : ObjectId; name : string }.
End RawCategory.
Module RawSize.
Record t := { _id : ObjectId; name : string; value : string }.
End RawSize.
Module RawColor.
Record t := { _id : ObjectId; name : string; value : string }.
End RawColor.

Module LeanProduct.
Record t := {
  _id : string; name : string; price : number;
  isFeatured : bool; isArchived : bool;
  categoryId : string; sizeId : string; colorId : string;
  images : list string;
}.
End LeanProduct.
Module LeanCategory.
Record t := { _id : string; name : string }.
End LeanCategory.
Module LeanSize.
Record t := { _id : string; name : string; value : string }.
End LeanSize.
Module LeanColor.
Record t := { _id : string; name : string; value : string }.
End LeanColor.

Record Params := { productId : string; storeId : string }.

Inductive PageE : Type -> Type :=
| connectDB : PageE (Error + unit)
| Product_findById (id : string) : PageE (Error + option FoundProduct.t)
| Category_find (storeId : string) : PageE (Error + list RawCategory.t)
| Size_find (storeId : string) : PageE (Error + list RawSize.t)
| Color_find (storeId : string) : PageE (Error + list RawColor.t)
| console_error (msg : string) (error : Error) : PageE unit.

(** [Promise.all([p1, p2, p3])]: the three are started; the join is
    fulfilled with the three values when all three are fulfilled and is
    rejected when one of them is.  Which rejection the join carries is a
    matter of time; the first in the order of the array stands for it. *)
Definition Promise_all {A B C} (p1 : PageE (Error + A)) (p2 : PageE (Error + B))
    (p3 : PageE (Error + C)) : Prog PageE (A * B * C) :=
  Vis p1 (fun r1 => Vis p2 (fun r2 => Vis p3 (fun r3 =>
    match r1, r2, r3 with
    | inr a, inr b, inr c => Ret (a, b, c)
    | inl e, _, _ => Throw e
    | _, inl e, _ => Throw e
    | _, _, inl e => Throw e
    end))).

(** The props handed to [ProductForm]. *)
Record ProductFormProps := {
  initialData : option LeanProduct.t;
  categories : list LeanCategory.t;
  sizes : list LeanSize.t;
  colors : list LeanColor.t;
}.

(** [v.toString()] on a reference: a [TypeError] is thrown when the
    reference is not there. *)
Definition reference_toString (v : option ObjectId) : Error + string :=
  match v with
  | Some id => inr (toString id)
  | None => inl "TypeError: Cannot read properties of undefined (reading 'toString')"
  end.

(** The object literal built from the document found, its fields in the
    order they are written: the first reference that is not there throws. *)
Definition lean_product (found : FoundProduct.t) : Error + LeanProduct.t :=
  match reference_toString (FoundProduct.categoryId found) with
  | inl error => inl error
  | inr category =>
      match reference_toString (FoundProduct.sizeId found) with
      | inl error => inl error
      | inr size =>
          match reference_toString (FoundProduct.colorId found) with
          | inl error => inl error
          | inr color =>
              inr {| LeanProduct._id := toString (FoundProduct._id found);
                     LeanProduct.name := FoundProduct.name found;
                     LeanProduct.price := FoundProduct.price found;
                     LeanProduct.isFeatured := FoundProduct.isFeatured found;
                     LeanProduct.isArchived := FoundProduct.isArchived found;
                     LeanProduct.categoryId := category;
                     LeanProduct.sizeId := size;
                     LeanProduct.colorId := color;
                     LeanProduct.images := FoundProduct.images found |}
          end
      end
  end.

Definition lean_category (c : RawCategory.t) : LeanCategory.t :=
  {| LeanCategory._id := toString (RawCategory._id c);
     LeanCategory.name := RawCategory.name c |}.
Definition lean_size (s : RawSize.t) : LeanSize.t :=
  {| LeanSize._id := toString (RawSize._id s);
     LeanSize.name := RawSize.name s;
     LeanSize.value := RawSize.value s |}.
Definition lean_color (c : RawColor.t) : LeanColor.t :=
  {| LeanColor._id := toString (RawColor._id c);
     LeanColor.name := RawColor.name c;
     LeanColor.value := RawColor.value c |}.

Section Page.
(** mongoose's [isValidObjectId] on strings. *)
Variable isValidObjectId : string -> bool.

(** 1. Load existing product if editing. *)
Definition load_product (params : Params) : Prog PageE (option LeanProduct.t) :=
  if bool_decide (productId params ≠ "new") && isValidObjectId (productId params)
  then
    found ← await (Product_findById (productId params));
    match found with
    | Some found =>
        match lean_product found with
        | inr product => mret (Some product)
        | inl error => Throw error
        end
    | None => mret None
    end
  else mret None.

(** 2. Load dropdown data in parallel.  The three [let] variables of
    the page are the triple that the [try] block leaves: its own when
    it completes, the initial empty arrays when it throws (the
    assignments come after the join). *)
Definition load_dropdowns (params : Params)
    : Prog PageE (list LeanCategory.t * list LeanSize.t * list LeanColor.t) :=
  try_catch
    (raw ← Promise_all (Category_find (storeId params))
                       (Size_find (storeId params))
                       (Color_find (storeId params));
     mret (map lean_category raw.1.1, map lean_size raw.1.2,
           map lean_color raw.2))
    (fun error =>
       perform (console_error "Error fetching product-related data:" error) ;;
       mret ([], [], [])).

(** 3. Render form. *)
Definition ProductPage (params : Params) : Prog PageE ProductFormProps :=
  await connectDB ;;
  product ← load_product params;
  dropdowns ← load_dropdowns params;
  mret {| initialData := product;
          categories := dropdowns.1.1;
          sizes := dropdowns.1.2;
          colors := dropdowns.2 |}.
End Page.

(** The database as the page meets it: what each query settles with. *)
Record Database := {
  connect : Error + unit;
  product_by_id : string -> Error + option FoundProduct.t;
  categories_of : string -> Error + list RawCategory.t;
  sizes_of : string -> Error + list RawSize.t;
  colors_of : string -> Error + list RawColor.t;
}.

Definition answer (db : Database) {X} (ev : PageE X) : X :=
  match ev in PageE X return X with
  | connectDB => connect db
  | Product_findById id => product_by_id db id
  | Category_find store => categories_of db store
  | Size_find store => sizes_of db store
  | Color_find store => colors_of db store
  | console_error _ _ => tt
  end.

(** An event the page performed. *)
Definition Performed : Type := sigT PageE.

(** Runs the page against a database: its completion (the props, or the
    value thrown) and the events performed, oldest first. *)
Fixpoint render {A} (db : Database) (p : Prog PageE A) : (Error + A) * list Performed :=
  match p with
  | Ret a => (inr a, [])
  | Throw e => (inl e, [])
  | Vis ev k =>
      let '(r, evs) := render db (k (answer db ev)) in
      (r, existT _ ev :: evs)
  end.

Definition is_lookup (c : Performed) : bool :=
  match projT2 c with
  | Product_findById _ => true
  | _ => false
  end.

Definition is_console_error (c : Performed) : bool :=
  match projT2 c with
  | console_error _ _ => true
  | _ => false
  end.

(** The option set of a collection as the specification words it: "each
    succeeding collection is still delivered to the form and each failing
    one degrades to an empty option set". *)
Definition delivered_or_empty {A B} (f : A -> B) (fetched : Error + list A) : list B :=
  match fetched with
  | inr l => map f l
  | inl _ => []
  end.

(** The page tolerates individual fetch failures, as the specification
    words it, on the database [db] for the route [params]. *)
Definition tolerates_individual_failures (isValidObjectId : string -> bool)
    (db : Database) (params : Params) : Prop :=
  exists props,
    (render db (ProductPage isValidObjectId params)).1 = inr props /\
    categories props = delivered_or_empty lean_category (categories_of db (storeId params)) /\
    sizes props = delivered_or_empty lean_size (sizes_of db (storeId params)) /\
    colors props = delivered_or_empty lean_color (colors_of db (storeId params)).
End ProductPage.

(** ** The setup page *)

Module SetUpPage.
Section Page.
(** [useStoreModal()]: the store of the store-creation modal is
    missing from the sources at hand; it is taken as given. *)
Variable ModalStore : Type.
Variable isOpen : ModalStore -> bool.
Variable onOpen : ModalStore -> ModalStore.

(** What the page renders: [null]. *)
Definition SetUpPage (m : ModalStore) : option string := None.

(** The body of the effect. *)
Definition effect (m : ModalStore) : ModalStore :=
  if negb (isOpen m) then onOpen m else m.

(** The effect runs after the first render and after every render in
    which one of its dependencies differs from the render before;
    [onOpen] is the same function throughout, so that is when [isOpen]
    differs.  [settle] runs the effect until a render leaves it
    nothing to do. *)
Fixpoint settle (fuel : nat) (m : ModalStore) : option ModalStore :=
  match fuel with
  | 0 => None
  | S fuel' =>
      let m' := effect m in
      if bool_decide (isOpen m' = isOpen m) then Some m' else settle fuel' m'
  end.
End Page.
End SetUpPage.

(** ** Sample data *)

Module Sample.
Import BillboardForm.

(** A stand-in for the URL parser of the platform. *)
Definition isURL (s : string) : bool := String.prefix "https://" s.

Definition params : Params :=
  {| storeId := "store-1"; billboardId := "billboard-1" |}.

(** The billboard of the example of the specification. *)
Definition billboard : Billboard :=
  {| _id := "billboard-1"; label := "Summer Sale";
     imageUrl := "https://host/img.png"; userId := "user-1" |}.

Definition fields : JsObject :=
  <["label" := JsStr "Summer Sale"]>
    (<["imageUrl" := JsStr "https://host/img.png"]> ∅).

(** The create form once the user has filled it in. *)
Definition filled : Screen :=
  exec isURL None params
    [Change label_field "Summer Sale";
     Change imageUrl_field "https://host/img.png"]
    (mount None).

(** The edit form after the trash button was pressed. *)
Definition confirming : Screen :=
  exec isURL (Some billboard) params [TrashClick] (mount (Some billboard)).

(** A store in which a category uses the billboard. *)
Definition db : BackingStore.Db :=
  {| BackingStore.billboards :=
       [{| BackingStore.owner := "store-1"; BackingStore.record := billboard |}];
     BackingStore.categories :=
       [{| BackingStore.category_id := "category-1";
           BackingStore.category_billboardId := "billboard-1" |}] |}.

(** A database whose categories load while its sizes fail. *)
Definition shoes : ProductPage.RawCategory.t :=
  {| ProductPage.RawCategory._id := {| ProductPage.toString := "c1" |};
     ProductPage.RawCategory.name := "Shoes" |}.

Definition database : ProductPage.Database :=
  {| ProductPage.connect := inr tt;
     ProductPage.product_by_id := fun _ => inr None;
     ProductPage.categories_of := fun _ => inr [shoes];
     ProductPage.sizes_of := fun _ => inl "sizes unavailable";
     ProductPage.colors_of := fun _ => inr [] |}.

Definition new_product : ProductPage.Params :=
  {| ProductPage.productId := "new"; ProductPage.storeId := "store-1" |}.

Definition missing_product : ProductPage.Params :=
  {| ProductPage.productId := "0123456789abcdef01234567";
     ProductPage.storeId := "store-1" |}.

(** A stand-in for mongoose's check: 24 characters. *)
Definition isValidObjectId (s : string) : bool := String.length s =? 24.

(** A stand-in for the store of the store-creation modal: the flag
    itself. *)
Definition modal_isOpen (m : bool) : bool := m.
Definition modal_onOpen (m : bool) : bool := true.
End Sample.

(** ** The billboard form over whole executions *)

Module BillboardTrace.
Import BillboardForm.

(** JavaScript truthiness, as the condition of [? :] takes a value. *)
Definition truthy (v : JsVal) : bool :=
  match v with
  | JsUndefined => false
  | JsNull => false
  | JsBool b => b
  | JsNum n => negb (n =? 0)%Z
  | JsStr s => negb (String.eqb s "")
  end.

(** [value={field.value ? [field.value] : []}]: what the image upload
    control is given to show, [field] being the field [imageUrl]. *)
Definition ImageUpload_value (s : Screen) : list JsVal :=
  if truthy (get_prop (values s) "imageUrl")
  then [get_prop (values s) "imageUrl"]
  else [].

(** [onRemove={() => field.onChange('')}] *)
Definition ImageUpload_onRemove : UiEvent := Change imageUrl_field "".

Definition is_toast (e : Effect) : bool :=
  match e with
  | Call (ToastSuccess _) => true
  | Call (ToastError _) => true
  | _ => false
  end.

Definition toasts (l : list Effect) : list Effect := List.filter is_toast l.

(** The settling of a request as fulfilled. *)
Definition is_fulfilment (ev : UiEvent) : bool :=
  match ev with
  | Settled _ (inr _) => true
  | _ => false
  end.

Section Trace.
Variable isURL : string -> bool.
Variable initialData : option Billboard.
Variable params : Params.

(** What is left of [onSubmit] after its [await], as the calls it makes. *)
Definition submit_tail (o : Outcome) : list Cmd :=
  match o with
  | inr _ => [RouterPush ("/" +:+ storeId params +:+ "/billboards");
              RouterRefresh;
              ToastSuccess (toastMessage initialData);
              SetLoading false]
  | inl _ => [ToastError "Something went wrong."; SetLoading false]
  end.

(** What is left of [onDelete] after its [await]. *)
Definition delete_tail (o : Outcome) : list Cmd :=
  match o with
  | inr _ => [RouterPush ("/" +:+ storeId params +:+ "/billboards");
              RouterRefresh;
              ToastSuccess "Billboard deleted successfully";
              SetLoading false; SetOpen false]
  | inl _ => [ToastError
                "Make sure you deleted all categories using this billboard first";
              SetLoading false; SetOpen false]
  end.

Definition resumes_as (tail : Outcome -> list Cmd)
    (k : Outcome -> Prog FormE unit) : Prop :=
  forall o s, run (k o) s = do_cmds (tail o) s.

(** Either idle, or submitting with one request in flight that is the
    request of [onSubmit] or of [onDelete], suspended at its [await]. *)
Definition tracked (s : Screen) : Prop :=
  idle s \/
  (loading s = true /\
   exists r k, inflight s = [(r, k)] /\
     ((exists d, r = submit_request initialData params d /\
                 resumes_as submit_tail k) \/
      (r = delete_request (storeId params) (billboardId params) /\
       resumes_as delete_tail k))).

(** The steps of the screen, one by one. *)
Inductive tracked_step (s : Screen) : UiEvent -> Screen -> Prop :=
| step_none ev : tracked_step s ev s
| step_errors errs :
    idle s -> Zod.zodResolver (formSchema isURL) (values s) = inl errs ->
    tracked_step s SubmitClick (with_errors errs s)
| step_submit d k :
    idle s -> Zod.zodResolver (formSchema isURL) (values s) = inr d ->
    resumes_as submit_tail k ->
    tracked_step s SubmitClick
      (with_inflight [(submit_request initialData params d, k)]
         (logged (Http (submit_request initialData params d))
                 (do_cmd (SetLoading true) (with_errors ∅ s))))
| step_change f v :
    loading s = false ->
    tracked_step s (Change f v) (field_onChange f v s)
| step_open :
    initialData <> None -> loading s = false ->
    tracked_step s TrashClick (do_cmd (SetOpen true) s)
| step_close :
    open s = true ->
    tracked_step s (Modal Cancel) (do_cmd (SetOpen false) s)
| step_delete k :
    idle s -> open s = true -> resumes_as delete_tail k ->
    tracked_step s (Modal Continue)
      (with_inflight [(delete_request (storeId params) (billboardId params), k)]
         (logged (Http (delete_request (storeId params) (billboardId params)))
                 (do_cmd (SetLoading true) s)))
| step_submit_settled d k o :
    loading s = true ->
    inflight s = [(submit_request initialData params d, k)] ->
    tracked_step s (Settled 0 o) (do_cmds (submit_tail o) (with_inflight [] s))
| step_delete_settled k o :
    loading s = true ->
    inflight s = [(delete_request (storeId params) (billboardId params), k)] ->
    tracked_step s (Settled 0 o) (do_cmds (delete_tail o) (with_inflight [] s)).
End Trace.
End BillboardTrace.

(** ** The billboard form between renders *)

(** [BillboardForm.step] takes every user event at a moment of rest: the
    resolver has answered and the view has been rendered anew from the
    state.  Here the two are events of their own, so that a user event
    can come before them. *)
Module AsyncForm.
Import BillboardForm.

Record Form := {
  screen : Screen;
  (* the two flags as of the last render: what the controls go by *)
  view_loading : bool;
  view_open : bool;
  (* the calls of [handleSubmit] suspended at the [await] of the
     resolver, each with what the resolver answers, oldest first *)
  validating : list (gmap string Zod.Issue + JsObject);
}.

Definition on_screen (h : Screen -> Screen) (f : Form) : Form :=
  {| screen := h (screen f); view_loading := view_loading f;
     view_open := view_open f; validating := validating f |}.

(** The form as rendered from the state [s], with no call pending. *)
Definition rendered (s : Screen) : Form :=
  {| screen := s; view_loading := loading s; view_open := open s;
     validating := [] |}.

Inductive Event :=
| Ui (ev : UiEvent)   (* an event of the user, or the settling of a request *)
| Validated           (* the resolver answers the oldest pending call *)
| Render.             (* the view is rendered anew from the state *)

Section Component.
Variable isURL : string -> bool.
Variable initialData : option Billboard.
Variable params : Params.

(** [form.handleSubmit(onValid)] up to its [await]: the values are handed
    to the resolver and the call suspends. *)
Definition handleSubmit_call (f : Form) : Form :=
  {| screen := screen f; view_loading := view_loading f;
     view_open := view_open f;
     validating := validating f ++
                   [Zod.zodResolver (formSchema isURL) (values (screen f))] |}.

(** [form.handleSubmit(onValid)] after its [await]: on errors they become
    [formState.errors], otherwise [onValid] is called with the data. *)
Definition handleSubmit_resume (onValid : JsObject -> Prog FormE unit)
    (f : Form) : Form :=
  match validating f with
  | [] => f
  | answer :: rest =>
      {| screen := match answer with
                   | inl errs => with_errors errs (screen f)
                   | inr parsed => run (onValid parsed) (with_errors ∅ (screen f))
                   end;
         view_loading := view_loading f; view_open := view_open f;
         validating := rest |}
  end.

Definition render_view (f : Form) : Form :=
  {| screen := screen f; view_loading := loading (screen f);
     view_open := open (screen f); validating := validating f |}.

(** The controls go by the flags of the last render; the handlers act on
    the state. *)
Definition astep (e : Event) (f : Form) : Form :=
  match e with
  | Ui SubmitClick => if view_loading f then f else handleSubmit_call f
  | Ui TrashClick =>
      if initialData is Some _
      then on_screen (Control (view_loading f) (run (setOpen true))) f
      else f
  | Ui (Modal a) =>
      on_screen (AlertModal {| isOpen := view_open f;
                               onClose := run (setOpen false);
                               onConfirm := run (onDelete params);
                               modal_loading := view_loading f |} a) f
  | Ui (Change fl v) => on_screen (Control (view_loading f) (field_onChange fl v)) f
  | Ui (Settled i o) => on_screen (resume i o) f
  | Validated => handleSubmit_resume (onSubmit initialData params) f
  | Render => render_view f
  end.

Definition arun (es : list Event) (f : Form) : Form :=
  fold_left (fun f e => astep e f) es f.
End Component.
End AsyncForm.

(** ** More sample data *)

Module SampleMore.
Import ProductPage.

Definition sneaker : FoundProduct.t :=
  {| FoundProduct._id := {| toString := "0123456789abcdef01234567" |};
     FoundProduct.name := "Sneaker";
     FoundProduct.price := 50%Z;
     FoundProduct.isFeatured := true;
     FoundProduct.isArchived := false;
     FoundProduct.categoryId := Some {| toString := "c1" |};
     FoundProduct.sizeId := Some {| toString := "s1" |};
     FoundProduct.colorId := Some {| toString := "k1" |};
     FoundProduct.images := ["https://host/sneaker.png"] |}.

(** The sneaker as the form receives it. *)
Definition lean_sneaker : LeanProduct.t :=
  {| LeanProduct._id := "0123456789abcdef01234567";
     LeanProduct.name := "Sneaker";
     LeanProduct.price := 50%Z;
     LeanProduct.isFeatured := true;
     LeanProduct.isArchived := false;
     LeanProduct.categoryId := "c1";
     LeanProduct.sizeId := "s1";
     LeanProduct.colorId := "k1";
     LeanProduct.images := ["https://host/sneaker.png"] |}.

(** The sneaker without its category. *)
Definition uncategorised : FoundProduct.t :=
  {| FoundProduct._id := {| toString := "0123456789abcdef01234567" |};
     FoundProduct.name := "Sneaker";
     FoundProduct.price := 50%Z;
     FoundProduct.isFeatured := true;
     FoundProduct.isArchived := false;
     FoundProduct.categoryId := None;
     FoundProduct.sizeId := Some {| toString := "s1" |};
     FoundProduct.colorId := Some {| toString := "k1" |};
     FoundProduct.images := ["https://host/sneaker.png"] |}.

(** A database that holds it. *)
Definition dangling : Database :=
  {| connect := inr tt;
     product_by_id := fun _ => inr (Some uncategorised);
     categories_of := fun _ => inr [];
     sizes_of := fun _ => inr [];
     colors_of := fun _ => inr [] |}.

(** A database that holds the sneaker, and categories for the first
    store only. *)
Definition stocked : Database :=
  {| connect := inr tt;
     product_by_id := fun id =>
       if String.eqb id "0123456789abcdef01234567" then inr (Some sneaker)
       else inr None;
     categories_of := fun store =>
       if String.eqb store "store-1" then inr [Sample.shoes] else inr [];
     sizes_of := fun _ => inr [];
     colors_of := fun _ => inr [] |}.

(** A database that cannot be reached. *)
Definition offline : Database :=
  {| connect := inl "no connection";
     product_by_id := fun _ => inr None;
     categories_of := fun _ => inr [];
     sizes_of := fun _ => inr [];
     colors_of := fun _ => inr [] |}.

(** A database whose product lookups are rejected. *)
Definition flaky : Database :=
  {| connect := inr tt;
     product_by_id := fun _ => inl "lookup failed";
     categories_of := fun _ => inr [];
     sizes_of := fun _ => inr [];
     colors_of := fun _ => inr [] |}.

(** The route of the sneaker under another store. *)
Definition other_store : Params :=
  {| productId := "0123456789abcdef01234567"; storeId := "store-2" |}.

(** An open action that does nothing. *)
Definition broken_onOpen (m : bool) : bool := m.
End SampleMore.

(* ===================================================================== *)
(** * Part II: properties *)
(* ===================================================================== *)

(** ** The schema of the billboard form *)

Module ZodFacts.
Import BillboardForm.
Section Schema.
Variable isURL : string -> bool.

Lemma get_prop_lookup (o : JsObject) (key : string) (x : JsVal) :
  o !! key = Some x -> get_prop o key = x.
Proof. unfold get_prop. intros ->. reflexivity. Qed.

Lemma label_schema (l : string) :
  Zod.z_string isURL
    [Zod.min 3 (Some "Store name is required, (min 3 characters).");
     Zod.max 25 None] (JsStr l) =
  if String.length l <? 3
  then inl [Zod.too_small 3 (Some "Store name is required, (min 3 characters).")]
  else if 25 <? String.length l then inl [Zod.too_big 25 None]
       else inr (JsStr l).
Proof.
  unfold Zod.z_string. cbn [omap list_omap Zod.run_check].
  destruct (String.length l <? 3) eqn:Hmin;
    destruct (25 <? String.length l) eqn:Hmax; try reflexivity.
  apply Nat.ltb_lt in Hmin, Hmax. lia.
Qed.

Lemma imageUrl_schema (u : string) :
  Zod.z_string isURL [Zod.url None] (JsStr u) =
  if isURL u then inr (JsStr u) else inl [Zod.invalid_string "url" None].
Proof.
  unfold Zod.z_string. cbn [omap list_omap Zod.run_check].
  destruct (isURL u); reflexivity.
Qed.

(** Values that satisfy the schema parse to the two fields of the shape. *)
Lemma resolver_valid (v : JsObject) (l u : string) :
  v !! "label" = Some (JsStr l) ->
  v !! "imageUrl" = Some (JsStr u) ->
  3 <= String.length l <= 25 ->
  isURL u = true ->
  Zod.zodResolver (formSchema isURL) v =
    inr (<["label" := JsStr l]> (<["imageUrl" := JsStr u]> ∅)).
Proof.
  intros Hl Hu [Hmin Hmax] Hurl.
  unfold Zod.zodResolver, formSchema, Zod.z_object.
  cbn [Zod.parse_shape].
  rewrite (get_prop_lookup _ _ _ Hl), (get_prop_lookup _ _ _ Hu).
  rewrite label_schema, imageUrl_schema, Hurl.
  apply Nat.ltb_ge in Hmin. rewrite Hmin.
  assert (Hb : (25 <? String.length l) = false) by (apply Nat.ltb_ge; lia).
  rewrite Hb. reflexivity.
Qed.

(** The first issue of each field when the label or the image URL
    violates its checks. *)
Lemma resolver_invalid (v : JsObject) (l u : string) :
  v !! "label" = Some (JsStr l) ->
  v !! "imageUrl" = Some (JsStr u) ->
  String.length l < 3 \/ 25 < String.length l \/ isURL u = false ->
  exists errs : gmap string Zod.Issue,
    Zod.zodResolver (formSchema isURL) v = inl errs /\
    (String.length l < 3 ->
     errs !! "label" =
       Some (Zod.too_small 3 (Some "Store name is required, (min 3 characters)."))) /\
    (25 < String.length l -> errs !! "label" = Some (Zod.too_big 25 None)) /\
    (isURL u = false -> errs !! "imageUrl" = Some (Zod.invalid_string "url" None)).
Proof.
  intros Hl Hu Hbad.
  unfold Zod.zodResolver, formSchema, Zod.z_object.
  cbn [Zod.parse_shape].
  rewrite (get_prop_lookup _ _ _ Hl), (get_prop_lookup _ _ _ Hu).
  rewrite label_schema, imageUrl_schema.
  destruct (isURL u) eqn:Hurl;
    destruct (Nat.ltb_spec (String.length l) 3) as [Hmin|Hmin];
    destruct (Nat.ltb_spec 25 (String.length l)) as [Hmax|Hmax];
    try (exfalso; destruct Hbad as [?|[?|?]]; (lia || congruence));
    (eexists; split; [reflexivity|]);
    repeat split; intros; try lia; try congruence; reflexivity.
Qed.
Lemma get_prop_string (o : JsObject) (key x : string) :
  get_prop o key = JsStr x -> o !! key = Some (JsStr x).
Proof.
  unfold get_prop. destruct (o !! key) as [y|]; cbn; congruence.
Qed.

(** Conversely, the resolver accepts nothing else: accepted values hold
    a label within the bounds and an image URL the platform parses, and
    the data is made of these two fields. *)
Lemma resolver_accepts (v d : JsObject) :
  Zod.zodResolver (formSchema isURL) v = inr d ->
  exists l u,
    v !! "label" = Some (JsStr l) /\
    v !! "imageUrl" = Some (JsStr u) /\
    3 <= String.length l <= 25 /\
    isURL u = true /\
    d = <["label" := JsStr l]> (<["imageUrl" := JsStr u]> ∅).
Proof.
  unfold Zod.zodResolver, formSchema, Zod.z_object.
  cbn [Zod.parse_shape].
  destruct (get_prop v "label") as [| | | |l] eqn:Hl;
    destruct (get_prop v "imageUrl") as [| | | |u] eqn:Hu;
    try (cbn; discriminate);
    try (rewrite imageUrl_schema; destruct (isURL u); cbn; discriminate);
    try (rewrite label_schema;
         destruct (Nat.ltb_spec (String.length l) 3);
         [|destruct (Nat.ltb_spec 25 (String.length l))]; cbn; discriminate).
  rewrite label_schema, imageUrl_schema.
  destruct (isURL u) eqn:Hurl;
    destruct (Nat.ltb_spec (String.length l) 3) as [Hmin|Hmin];
    destruct (Nat.ltb_spec 25 (String.length l)) as [Hmax|Hmax];
    cbn; try discriminate.
  intros [= <-]. exists l, u.
  repeat split; auto using get_prop_string.
Qed.

(** The data the resolver hands over holds the keys of the shape only. *)
Lemma resolver_strips (v d : JsObject) :
  Zod.zodResolver (formSchema isURL) v = inr d ->
  dom d = {["label"; "imageUrl"]} /\ d !! "_id" = None.
Proof.
  intros (l & u & _ & _ & _ & _ & ->)%resolver_accepts. split.
  - rewrite !dom_insert_L, dom_empty_L. set_solver.
  - reflexivity.
Qed.
End Schema.
End ZodFacts.

(** ** The billboard form *)

Module BillboardFormFacts.
Import BillboardForm.

(** *** Synchronous calls only touch the two flags and the log *)

Lemma do_cmds_log (cmds : list Cmd) (s : Screen) :
  log (do_cmds cmds s) = log s ++ map Call cmds.
Proof.
  revert s. induction cmds as [|c cmds IH]; intros s.
  - cbn. by rewrite app_nil_r.
  - change (do_cmds (c :: cmds) s) with (do_cmds cmds (do_cmd c s)).
    rewrite IH. cbn [map]. rewrite cons_middle, app_assoc.
    f_equal. destruct c; reflexivity.
Qed.

Lemma do_cmds_inflight (cmds : list Cmd) (s : Screen) :
  inflight (do_cmds cmds s) = inflight s.
Proof.
  revert s. induction cmds as [|c cmds IH]; intros s; [reflexivity|].
  change (do_cmds (c :: cmds) s) with (do_cmds cmds (do_cmd c s)).
  rewrite IH. destruct c; reflexivity.
Qed.

Lemma do_cmds_values (cmds : list Cmd) (s : Screen) :
  values (do_cmds cmds s) = values s.
Proof.
  revert s. induction cmds as [|c cmds IH]; intros s; [reflexivity|].
  change (do_cmds (c :: cmds) s) with (do_cmds cmds (do_cmd c s)).
  rewrite IH. destruct c; reflexivity.
Qed.

Lemma do_cmds_errors (cmds : list Cmd) (s : Screen) :
  errors (do_cmds cmds s) = errors s.
Proof.
  revert s. induction cmds as [|c cmds IH]; intros s; [reflexivity|].
  change (do_cmds (c :: cmds) s) with (do_cmds cmds (do_cmd c s)).
  rewrite IH. destruct c; reflexivity.
Qed.

Lemma requests_app (l1 l2 : list Effect) :
  requests (l1 ++ l2) = requests l1 ++ requests l2.
Proof. apply List.filter_app. Qed.

Lemma navigations_app (l1 l2 : list Effect) :
  navigations (l1 ++ l2) = navigations l1 ++ navigations l2.
Proof. apply List.filter_app. Qed.

Lemma requests_calls (cmds : list Cmd) : requests (map Call cmds) = [].
Proof. induction cmds as [|c cmds IH]; [reflexivity|exact IH]. Qed.

(** Whatever the body of a [try] does, and wherever it throws, a
    [finally] that clears the submitting flag leaves it cleared. *)
Lemma finally_clears_loading (net : Request -> Outcome)
    (body : Prog FormE unit) (handler : Error -> Prog FormE unit) (s : Screen) :
  loading (complete net (try_catch_finally body handler (setLoading false)) s) = false.
Proof.
  unfold try_catch_finally.
  generalize (try_catch body handler). clear body handler. intros m.
  revert s. induction m as [a|e|X ev k IH]; intros s; [reflexivity|reflexivity|].
  cbn [try_finally complete]. destruct ev; apply IH.
Qed.

Section Facts.
Variable isURL : string -> bool.
Variable initialData : option Billboard.
Variable params : Params.

#[local] Abbreviation step := (step isURL initialData params).
#[local] Abbreviation exec := (exec isURL initialData params).
#[local] Abbreviation onSubmit := (onSubmit initialData params).
#[local] Abbreviation onDelete := (onDelete params).
#[local] Abbreviation submit_request := (submit_request initialData params).
#[local] Abbreviation resolver := (Zod.zodResolver (formSchema isURL)).
#[local] Abbreviation quiet_step := (quiet_step initialData).
#[local] Abbreviation sending_step := (sending_step isURL initialData params).

(** [onSubmit] up to its [await], and what is left of it after. *)
Lemma run_onSubmit (d : JsObject) (s : Screen) :
  exists k,
    run (onSubmit d) s =
      with_inflight (inflight s ++ [(submit_request d, k)])
        (logged (Http (submit_request d)) (do_cmd (SetLoading true) s)) /\
    (forall r s',
        run (k (inr r)) s' =
          do_cmds [RouterPush (list_route (storeId params)); RouterRefresh;
                   ToastSuccess (toastMessage initialData); SetLoading false] s') /\
    (forall e s',
        run (k (inl e)) s' =
          do_cmds [ToastError "Something went wrong."; SetLoading false] s').
Proof.
  unfold submit_request. destruct initialData; eexists; repeat split.
Qed.

Lemma run_onDelete (s : Screen) :
  exists k,
    run onDelete s =
      with_inflight
        (inflight s ++ [(delete_request (storeId params) (billboardId params), k)])
        (logged (Http (delete_request (storeId params) (billboardId params)))
                (do_cmd (SetLoading true) s)) /\
    (forall r s',
        run (k (inr r)) s' =
          do_cmds [RouterPush (list_route (storeId params)); RouterRefresh;
                   ToastSuccess "Billboard deleted successfully";
                   SetLoading false; SetOpen false] s') /\
    (forall e s',
        run (k (inl e)) s' =
          do_cmds [ToastError
                     "Make sure you deleted all categories using this billboard first";
                   SetLoading false; SetOpen false] s').
Proof. eexists; repeat split. Qed.

Lemma finishing_of (k : Outcome -> Prog FormE unit) (ok bad : list Cmd) :
  (forall r s, run (k (inr r)) s = do_cmds ok s) ->
  (forall e s, run (k (inl e)) s = do_cmds bad s) ->
  (forall s, loading (do_cmds ok s) = false /\
             (open (do_cmds ok s) = true -> open s = true)) ->
  (forall s, loading (do_cmds bad s) = false /\
             (open (do_cmds bad s) = true -> open s = true)) ->
  finishing k.
Proof.
  intros Hok Hbad Pok Pbad [e|r] s.
  - exists bad. split; [apply Hbad|apply Pbad].
  - exists ok. split; [apply Hok|apply Pok].
Qed.

(** *** One step of the screen *)

Lemma submit_click (s : Screen) (d : JsObject) :
  loading s = false ->
  resolver (values s) = inr d ->
  exists k,
    step SubmitClick s =
      with_inflight (inflight s ++ [(submit_request d, k)])
        (logged (Http (submit_request d))
                (do_cmd (SetLoading true) (with_errors ∅ s))) /\
    finishing k /\
    (forall r s',
        run (k (inr r)) s' =
          do_cmds [RouterPush (list_route (storeId params)); RouterRefresh;
                   ToastSuccess (toastMessage initialData); SetLoading false] s') /\
    (forall e s',
        run (k (inl e)) s' =
          do_cmds [ToastError "Something went wrong."; SetLoading false] s').
Proof.
  intros Hl Hv. unfold BillboardForm.step, Control, handleSubmit.
  rewrite Hl, Hv.
  destruct (run_onSubmit d (with_errors ∅ s)) as (k & Hrun & Hok & Hbad).
  exists k. split; [exact Hrun|]. split; [|split; assumption].
  eapply finishing_of; [exact Hok|exact Hbad| |]; intros s'; split; cbn; done.
Qed.

Lemma submit_click_disabled (s : Screen) :
  loading s = true -> step SubmitClick s = s.
Proof. intros Hl. unfold BillboardForm.step, Control. by rewrite Hl. Qed.

Lemma settled_head (s : Screen) (r : Request)
    (k : Outcome -> Prog FormE unit) (rest : list Task) (o : Outcome) :
  inflight s = (r, k) :: rest ->
  step (Settled 0 o) s = run (k o) (with_inflight rest s).
Proof. intros Hi. unfold BillboardForm.step, resume. by rewrite Hi. Qed.

(** A submission from the idle screen, followed by the settling of its
    request. *)
Lemma submit_round (s : Screen) (d : JsObject) (o : Outcome) :
  idle s ->
  resolver (values s) = inr d ->
  exec [SubmitClick; Settled 0 o] s =
    do_cmds
      (match o with
       | inr _ => [RouterPush (list_route (storeId params)); RouterRefresh;
                   ToastSuccess (toastMessage initialData); SetLoading false]
       | inl _ => [ToastError "Something went wrong."; SetLoading false]
       end)
      (with_inflight []
         (logged (Http (submit_request d))
                 (do_cmd (SetLoading true) (with_errors ∅ s)))).
Proof.
  intros [Hl Hi] Hv.
  destruct (submit_click s d Hl Hv) as (k & Hstep & _ & Hok & Hbad).
  unfold BillboardForm.exec. cbn [fold_left]. rewrite Hstep.
  rewrite (settled_head _ (submit_request d) k [] o)
    by (cbn; rewrite Hi; reflexivity).
  destruct o as [e|r]; [rewrite Hbad|rewrite Hok]; reflexivity.
Qed.

(** C1: from the idle screen, a submission of values that satisfy the
    schema sends exactly one request, however that request settles: in
    create mode a POST to the billboards of the store of the route, in
    edit mode a PATCH to the billboard of the route in that store (the
    identifier of the record handed to the form, when that record is
    the one the route names); the data sent holds the label and the
    image URL only, never the identifier of the record. *)
Theorem submit_issues_one_request (s : Screen) (fields : JsObject) (o : Outcome) :
  idle s ->
  resolver (values s) = inr fields ->
  let sent := requests (log (exec [SubmitClick; Settled 0 o] s)) in
  match initialData with
  | None =>
      sent = requests (log s) ++ [Http (create_request (storeId params) fields)]
  | Some b =>
      sent = requests (log s) ++
             [Http (update_request (storeId params) (billboardId params) fields)] /\
      (_id b = billboardId params ->
       url (update_request (storeId params) (billboardId params) fields) =
         "/api/" +:+ storeId params +:+ "/billboards/" +:+ _id b)
  end /\
  dom fields = {["label"; "imageUrl"]} /\
  fields !! "_id" = None.
Proof.
  intros Hidle Hv sent. subst sent.
  rewrite (submit_round s fields o Hidle Hv), do_cmds_log.
  cbn [log with_inflight logged do_cmd with_loading with_errors].
  rewrite !requests_app, requests_calls, app_nil_r.
  split; [|exact (ZodFacts.resolver_strips isURL _ _ Hv)].
  unfold BillboardForm.submit_request.
  destruct initialData as [b|]; cbn; rewrite app_nil_r; [split|]; try reflexivity.
  intros ->. reflexivity.
Qed.

(** C2: when the request of a submission is fulfilled, the screen
    navigates to the list of billboards exactly once, then refreshes,
    then shows the success notification of its mode: "created" in
    create mode and "updated" in edit mode. *)
Theorem success_navigates_once (s : Screen) (fields : JsObject)
    (r : AxiosResponse) :
  idle s ->
  resolver (values s) = inr fields ->
  let s' := exec [SubmitClick; Settled 0 (inr r)] s in
  log s' = log (step SubmitClick s) ++
           [Call (RouterPush ("/" +:+ storeId params +:+ "/billboards"));
            Call RouterRefresh;
            Call (ToastSuccess (if initialData is Some _
                                then "Billboard updated successfully"
                                else "Billboard created successfully"));
            Call (SetLoading false)] /\
  navigations (log s') =
    navigations (log s) ++
    [Call (RouterPush ("/" +:+ storeId params +:+ "/billboards"))].
Proof.
  intros Hidle Hv s'. subst s'.
  rewrite (submit_round s fields (inr r) Hidle Hv), do_cmds_log.
  destruct (submit_click s fields (proj1 Hidle) Hv) as (k & -> & _).
  cbn [log with_inflight logged do_cmd with_loading with_errors].
  split; [reflexivity|].
  rewrite !navigations_app. cbn. by rewrite !app_nil_r.
Qed.

(** C3: when the request of a submission is rejected, the screen shows
    the generic failure notification, does not navigate, and keeps the
    field values; it is idle again, so that the same values can be
    submitted anew. *)
Theorem failure_keeps_form (s : Screen) (fields : JsObject) (e : Error) :
  idle s ->
  resolver (values s) = inr fields ->
  let s' := exec [SubmitClick; Settled 0 (inl e)] s in
  log s' = log (step SubmitClick s) ++
           [Call (ToastError "Something went wrong."); Call (SetLoading false)] /\
  navigations (log s') = navigations (log s) /\
  values s' = values s /\
  idle s' /\
  requests (log (step SubmitClick s')) =
    requests (log s') ++ [Http (submit_request fields)].
Proof.
  intros Hidle Hv s'.
  assert (Hs' : s' = do_cmds [ToastError "Something went wrong."; SetLoading false]
            (with_inflight []
               (logged (Http (submit_request fields))
                  (do_cmd (SetLoading true) (with_errors ∅ s)))))
    by apply (submit_round s fields (inl e) Hidle Hv).
  assert (Hval : values s' = values s) by (rewrite Hs'; reflexivity).
  assert (Hidle' : idle s') by (rewrite Hs'; split; reflexivity).
  split; [|split; [|split; [exact Hval|split; [exact Hidle'|]]]].
  - destruct (submit_click s fields (proj1 Hidle) Hv) as (k & -> & _).
    rewrite Hs', do_cmds_log. reflexivity.
  - rewrite Hs', do_cmds_log.
    cbn [log with_inflight logged do_cmd with_loading with_errors].
    rewrite !navigations_app. cbn. by rewrite !app_nil_r.
  - assert (Hv' : resolver (values s') = inr fields) by (rewrite Hval; exact Hv).
    destruct (submit_click s' fields (proj1 Hidle') Hv') as (k & -> & _).
    cbn [log with_inflight logged do_cmd with_loading with_errors].
    rewrite !requests_app. cbn. by rewrite app_nil_r.
Qed.

(** *** Invariants of the screen *)

Lemma exec_snoc (evs : list UiEvent) (ev : UiEvent) (s : Screen) :
  exec (evs ++ [ev]) s = step ev (exec evs s).
Proof. unfold BillboardForm.exec. by rewrite fold_left_app. Qed.

Lemma steady_same (s s' : Screen) :
  loading s' = loading s -> inflight s' = inflight s -> steady s -> steady s'.
Proof.
  intros Hl Hi [[? ?]|(? & r & k & ? & ?)].
  - left. split; congruence.
  - right. split; [congruence|]. exists r, k. split; [congruence|assumption].
Qed.

Lemma modal_continue (s : Screen) :
  open s = true -> loading s = false ->
  exists k,
    step (Modal Continue) s =
      with_inflight
        (inflight s ++ [(delete_request (storeId params) (billboardId params), k)])
        (logged (Http (delete_request (storeId params) (billboardId params)))
                (do_cmd (SetLoading true) s)) /\
    finishing k /\
    (forall r s',
        run (k (inr r)) s' =
          do_cmds [RouterPush (list_route (storeId params)); RouterRefresh;
                   ToastSuccess "Billboard deleted successfully";
                   SetLoading false; SetOpen false] s') /\
    (forall e s',
        run (k (inl e)) s' =
          do_cmds [ToastError
                     "Make sure you deleted all categories using this billboard first";
                   SetLoading false; SetOpen false] s').
Proof.
  intros Ho Hl. unfold BillboardForm.step, AlertModal, Control.
  cbn [isOpen modal_loading onConfirm]. rewrite Ho, Hl.
  destruct (run_onDelete s) as (k & Hrun & Hok & Hbad).
  exists k. split; [exact Hrun|]. split; [|split; assumption].
  eapply finishing_of; [exact Hok|exact Hbad| |]; intros s'; split; cbn; done.
Qed.

Lemma modal_continue_blocked (s : Screen) :
  open s = false \/ loading s = true -> step (Modal Continue) s = s.
Proof.
  unfold BillboardForm.step, AlertModal, Control.
  cbn [isOpen modal_loading onConfirm].
  intros [->| ->]; [reflexivity|]. by destruct (open s).
Qed.

Lemma step_cases (ev : UiEvent) (s : Screen) :
  steady s -> quiet_step ev s (step ev s) \/ sending_step ev s (step ev s).
Proof.
  intros Hs. destruct ev as [| |[|]|f v|i o].
  - destruct (loading s) eqn:Hl.
    + rewrite submit_click_disabled by done. left. constructor.
    + assert (Hidle : idle s)
        by (destruct Hs as [?|[? _]]; [assumption|congruence]).
      destruct (resolver (values s)) as [errs|d] eqn:Hv.
      * left. unfold BillboardForm.step, Control, handleSubmit.
        rewrite Hl, Hv. constructor.
      * right. destruct (submit_click s d Hl Hv) as (k & -> & Hfin & _).
        rewrite (proj2 Hidle). by constructor.
  - left. unfold BillboardForm.step, Control.
    destruct initialData eqn:Hd; [|constructor].
    destruct (loading s) eqn:Hl; [constructor|].
    apply quiet_open; congruence.
  - destruct (open s) eqn:Ho; [destruct (loading s) eqn:Hl|].
    + left. rewrite modal_continue_blocked by auto. constructor.
    + right. assert (Hidle : idle s)
        by (destruct Hs as [?|[? _]]; [assumption|congruence]).
      destruct (modal_continue s Ho Hl) as (k & -> & Hfin & _).
      rewrite (proj2 Hidle). by constructor.
    + left. rewrite modal_continue_blocked by auto. constructor.
  - left. unfold BillboardForm.step, AlertModal. cbn [isOpen onClose].
    destruct (open s); constructor.
  - left. unfold BillboardForm.step, Control.
    destruct (loading s); constructor.
  - left. unfold BillboardForm.step, resume.
    destruct Hs as [[_ Hi]|(_ & r & k & Hi & Hfin)]; rewrite Hi.
    + rewrite lookup_nil. constructor.
    + destruct i as [|i]; cbn; [|constructor].
      by apply (quiet_resume _ _ _ r).
Qed.

Lemma resume_finishing (k : Outcome -> Prog FormE unit) (o : Outcome)
    (s : Screen) :
  finishing k ->
  exists cmds,
    run (k o) s = do_cmds cmds s /\
    loading (run (k o) s) = false /\
    inflight (run (k o) s) = inflight s /\
    values (run (k o) s) = values s /\
    log (run (k o) s) = log s ++ map Call cmds /\
    (open (run (k o) s) = true -> open s = true).
Proof.
  intros Hfin. destruct (Hfin o s) as (cmds & Hrun & Hl & Ho).
  exists cmds. rewrite Hrun.
  by rewrite do_cmds_inflight, do_cmds_values, do_cmds_log.
Qed.

Lemma steady_step (ev : UiEvent) (s : Screen) :
  steady s -> steady (step ev s).
Proof.
  intros Hs. destruct (step_cases ev s Hs) as [Hq|Hq]; destruct Hq.
  - assumption.
  - by apply (steady_same s).
  - by apply (steady_same s).
  - by apply (steady_same s).
  - by apply (steady_same s).
  - destruct (resume_finishing k o (with_inflight [] s))
      as (? & _ & Hl & Hi & _); [assumption|].
    left. split; [exact Hl|exact Hi].
  - right. split; [reflexivity|]. eauto.
  - right. split; [reflexivity|]. eauto.
Qed.

Lemma steady_exec (evs : list UiEvent) (s : Screen) :
  steady s -> steady (exec evs s).
Proof.
  revert s. induction evs as [|ev evs IH]; intros s Hs; [exact Hs|].
  apply IH, steady_step, Hs.
Qed.

Lemma steady_mount : steady (mount initialData).
Proof. left. split; reflexivity. Qed.

Lemma steady_inflight (s : Screen) : steady s -> length (inflight s) <= 1.
Proof. intros [[_ ->]|(_ & r & k & -> & _)]; cbn; lia. Qed.

Lemma steady_idle (s : Screen) : steady s -> loading s = false -> idle s.
Proof. intros [?|[? _]] ?; [assumption|congruence]. Qed.

Lemma not_request_call (r : Request) (cmds : list Cmd) :
  ~ In (Http r) (map Call cmds).
Proof. induction cmds as [|c cmds IH]; cbn; [tauto|]. intros [?|?]; [discriminate|tauto]. Qed.

(** The modal opens by the trash button only, which edit mode alone
    shows. *)
Lemma open_step (ev : UiEvent) (s : Screen) :
  steady s -> open (step ev s) = true ->
  open s = true \/ (ev = TrashClick /\ initialData <> None).
Proof.
  intros Hs. destruct (step_cases ev s Hs) as [Hq|Hq]; destruct Hq;
    try (by left); try (by right).
  destruct (resume_finishing k o (with_inflight [] s))
    as (? & _ & _ & _ & _ & _ & Ho); [assumption|].
  intros Hopen. left. by apply Ho.
Qed.

(** A delete request enters the log by the confirmation of the open
    modal only. *)
Lemma delete_step (ev : UiEvent) (s : Screen) (r : Request) :
  steady s -> In (Http r) (log (step ev s)) -> method r = DELETE ->
  In (Http r) (log s) \/ (ev = Modal Continue /\ open s = true).
Proof.
  intros Hs. destruct (step_cases ev s Hs) as [Hq|Hq]; destruct Hq;
    try (by left).
  - cbn. rewrite in_app_iff. cbn. intros [?|[?|[]]]; [tauto|discriminate].
  - cbn. rewrite in_app_iff. cbn. intros [?|[?|[]]]; [tauto|discriminate].
  - destruct (resume_finishing k o (with_inflight [] s))
      as (cmds & _ & _ & _ & _ & Hlog & _); [assumption|].
    rewrite Hlog, in_app_iff. intros [?|?%not_request_call]; tauto.
  - cbn. rewrite !in_app_iff. cbn.
    intros [[?|[?|[]]]|[[= <-]|[]]] Hm; [tauto|discriminate|].
    unfold BillboardForm.submit_request in Hm.
    destruct initialData; discriminate.
  - by right.
Qed.

(** *** The confirmation step *)

Lemma modal_opened_by_trash (evs : list UiEvent) :
  open (exec evs (mount initialData)) = true ->
  initialData <> None /\
  exists before between,
    evs = before ++ TrashClick :: between /\
    open (exec (before ++ [TrashClick]) (mount initialData)) = true.
Proof.
  induction evs as [|ev evs IH] using rev_ind; [discriminate|].
  rewrite exec_snoc. intros Ho.
  destruct (open_step ev _ (steady_exec evs _ steady_mount) Ho)
    as [Hprev|[-> Hd]].
  - destruct (IH Hprev) as (Hd & before & between & -> & Hopen).
    split; [exact Hd|]. exists before, (between ++ [ev]).
    split; [|exact Hopen]. by rewrite <- app_assoc.
  - split; [exact Hd|]. exists evs, []. split; [reflexivity|].
    by rewrite exec_snoc.
Qed.

(** C5: in every execution of the screen from its mount, a delete
    request in the log means that the form is in edit mode and that,
    earlier, the trash button was pressed and opened the confirmation
    modal, and that, later, the open modal was confirmed. *)
Theorem delete_needs_confirmation (evs : list UiEvent) (r : Request) :
  In (Http r) (log (exec evs (mount initialData))) ->
  method r = DELETE ->
  initialData <> None /\
  exists before between after,
    evs = before ++ TrashClick :: between ++ Modal Continue :: after /\
    open (exec (before ++ [TrashClick]) (mount initialData)) = true /\
    open (exec (before ++ TrashClick :: between) (mount initialData)) = true.
Proof.
  induction evs as [|ev evs IH] using rev_ind; [intros []|].
  rewrite exec_snoc. intros Hin Hm.
  destruct (delete_step ev _ r (steady_exec evs _ steady_mount) Hin Hm)
    as [Hprev|[-> Ho]].
  - destruct (IH Hprev Hm) as (Hd & before & between & after & -> & H1 & H2).
    split; [exact Hd|]. exists before, between, (after ++ [ev]).
    split; [|split; assumption].
    rewrite <- !app_assoc. cbn. by rewrite <- app_assoc.
  - destruct (modal_opened_by_trash evs Ho) as (Hd & before & between & -> & H1).
    split; [exact Hd|]. exists before, between, [].
    split; [|split; assumption].
    by rewrite <- app_assoc.
Qed.

(** C8: with the submit button enabled, a submission of values whose
    label is shorter than 3 or longer than 25, or whose image URL the
    platform does not parse, sends no request and runs no handler: the
    log and the requests in flight are as before, and the message of
    each violating field is shown under it. *)
Theorem invalid_input_blocks_submit (s : Screen) (l u : string) :
  loading s = false ->
  values s !! "label" = Some (JsStr l) ->
  values s !! "imageUrl" = Some (JsStr u) ->
  String.length l < 3 \/ 25 < String.length l \/ isURL u = false ->
  let s' := step SubmitClick s in
  log s' = log s /\
  inflight s' = inflight s /\
  loading s' = false /\
  (String.length l < 3 ->
   FormMessage label_field s' =
     Some (Zod.too_small 3 (Some "Store name is required, (min 3 characters)."))) /\
  (25 < String.length l ->
   FormMessage label_field s' = Some (Zod.too_big 25 None)) /\
  (isURL u = false ->
   FormMessage imageUrl_field s' = Some (Zod.invalid_string "url" None)).
Proof.
  intros Hl Hlabel Hurl Hbad s'.
  destruct (ZodFacts.resolver_invalid isURL _ l u Hlabel Hurl Hbad)
    as (errs & Hv & Hsmall & Hbig & Hnourl).
  assert (Hs' : s' = with_errors errs s).
  { subst s'. unfold BillboardForm.step, Control, handleSubmit.
    by rewrite Hl, Hv. }
  rewrite Hs'. unfold FormMessage. cbn.
  repeat split; auto.
Qed.

(** *** Deleting *)

(** A confirmed delete from the idle screen, followed by the settling
    of its request. *)
Lemma delete_round (s : Screen) (o : Outcome) :
  idle s -> open s = true ->
  exec [Modal Continue; Settled 0 o] s =
    do_cmds
      (match o with
       | inr _ => [RouterPush (list_route (storeId params)); RouterRefresh;
                   ToastSuccess "Billboard deleted successfully";
                   SetLoading false; SetOpen false]
       | inl _ => [ToastError
                     "Make sure you deleted all categories using this billboard first";
                   SetLoading false; SetOpen false]
       end)
      (with_inflight []
         (logged (Http (delete_request (storeId params) (billboardId params)))
                 (do_cmd (SetLoading true) s))).
Proof.
  intros [Hl Hi] Ho.
  destruct (modal_continue s Ho Hl) as (k & Hstep & _ & Hok & Hbad).
  unfold BillboardForm.exec. cbn [fold_left]. rewrite Hstep.
  rewrite (settled_head _ (delete_request (storeId params) (billboardId params))
             k [] o) by (cbn; rewrite Hi; reflexivity).
  destruct o as [e|r]; [rewrite Hbad|rewrite Hok]; reflexivity.
Qed.

(** C6: after a confirmed delete, (1) if the request is rejected the
    screen shows the notification that advises to delete the categories
    that use the billboard first, and does not navigate; (2) however
    the request settles, the modal is closed and the screen is idle;
    (3) when the store rejects the delete because a category still
    references the billboard, the store is as before and the display
    row of the billboard is in the next list fetch. *)
Theorem rejected_delete_keeps_record (s : Screen) :
  idle s -> open s = true ->
  let s1 := step (Modal Continue) s in
  (forall e,
      let s2 := exec [Modal Continue; Settled 0 (inl e)] s in
      log s2 = log s1 ++
               [Call (ToastError
                        "Make sure you deleted all categories using this billboard first");
                Call (SetLoading false); Call (SetOpen false)] /\
      navigations (log s2) = navigations (log s)) /\
  (forall o,
      let s2 := exec [Modal Continue; Settled 0 o] s in
      open s2 = false /\ idle s2) /\
  (forall db st,
      In st (BackingStore.billboards db) ->
      BackingStore.owner st = storeId params ->
      _id (BackingStore.record st) = billboardId params ->
      existsb (BackingStore.references (billboardId params))
              (BackingStore.categories db) = true ->
      let answer :=
        BackingStore.delete_billboard (storeId params) (billboardId params) db in
      let s2 := exec [Modal Continue; Settled 0 answer.1] s in
      (exists e, answer.1 = inl e) /\
      navigations (log s2) = navigations (log s) /\
      answer.2 = db /\
      In (BackingStore.display_row (BackingStore.record st))
         (BackingStore.list_fetch (storeId params) answer.2)).
Proof.
  intros Hidle Ho s1.
  assert (Hfail : forall e,
             let s2 := exec [Modal Continue; Settled 0 (inl e)] s in
             log s2 = log s1 ++
               [Call (ToastError
                        "Make sure you deleted all categories using this billboard first");
                Call (SetLoading false); Call (SetOpen false)] /\
             navigations (log s2) = navigations (log s)).
  { intros e s2. subst s2. rewrite (delete_round s (inl e) Hidle Ho), do_cmds_log.
    subst s1. destruct (modal_continue s Ho (proj1 Hidle)) as (k & -> & _).
    split; [reflexivity|].
    cbn [log with_inflight logged do_cmd with_loading].
    rewrite !navigations_app. cbn. by rewrite !app_nil_r. }
  split; [exact Hfail|split].
  - intros o s2. subst s2. rewrite (delete_round s o Hidle Ho).
    destruct o; repeat split.
  - intros db st Hin Hown Hid Href answer. subst answer.
    unfold BackingStore.delete_billboard. rewrite Href. cbn [fst snd].
    split; [eauto|]. split; [apply Hfail|]. split; [reflexivity|].
    unfold BackingStore.list_fetch.
    apply (in_map (fun st => BackingStore.display_row (BackingStore.record st))).
    apply filter_In. split; [exact Hin|]. by apply bool_decide_eq_true.
Qed.
End Facts.

(** *** The properties on the sample data *)

(** The example of the specification: creating the billboard "Summer
    Sale" sends one POST to the billboards of the store with those two
    fields, then routes to the list and shows the success notification. *)
Example create_summer_sale :
  log (exec Sample.isURL None Sample.params
         [SubmitClick; Settled 0 (inr {| status := 200 |})] Sample.filled) =
    [Call (SetLoading true);
     Http {| method := POST; url := "/api/store-1/billboards";
             data := Some Sample.fields |};
     Call (RouterPush "/store-1/billboards");
     Call RouterRefresh;
     Call (ToastSuccess "Billboard created successfully");
     Call (SetLoading false)].
Proof. reflexivity. Qed.

(** The values of the edit form hold the identifier of the record. *)
Example edit_values_hold_id :
  values (mount (Some Sample.billboard)) !! "_id" = Some (JsStr "billboard-1").
Proof. reflexivity. Qed.

Lemma submit_issues_one_request_witness :
  let s := mount (Some Sample.billboard) in
  let sent :=
    requests (log (exec Sample.isURL (Some Sample.billboard) Sample.params
                     [SubmitClick; Settled 0 (inl "offline")] s)) in
  (sent = requests (log s) ++
          [Http (update_request "store-1" "billboard-1" Sample.fields)] /\
   (_id Sample.billboard = billboardId Sample.params ->
    url (update_request "store-1" "billboard-1" Sample.fields) =
      "/api/" +:+ "store-1" +:+ "/billboards/" +:+ _id Sample.billboard)) /\
  dom Sample.fields = {["label"; "imageUrl"]} /\
  Sample.fields !! "_id" = None.
Proof.
  exact (submit_issues_one_request Sample.isURL (Some Sample.billboard)
           Sample.params (mount (Some Sample.billboard)) Sample.fields
           (inl "offline") (conj eq_refl eq_refl) eq_refl).
Defined.

Lemma success_navigates_once_witness :
  let s' := exec Sample.isURL None Sample.params
              [SubmitClick; Settled 0 (inr {| status := 201 |})] Sample.filled in
  log s' = log (step Sample.isURL None Sample.params SubmitClick Sample.filled) ++
           [Call (RouterPush "/store-1/billboards");
            Call RouterRefresh;
            Call (ToastSuccess "Billboard created successfully");
            Call (SetLoading false)] /\
  navigations (log s') =
    navigations (log Sample.filled) ++ [Call (RouterPush "/store-1/billboards")].
Proof.
  exact (success_navigates_once Sample.isURL None Sample.params Sample.filled
           Sample.fields {| status := 201 |} (conj eq_refl eq_refl) eq_refl).
Defined.

Lemma failure_keeps_form_witness :
  let s' := exec Sample.isURL None Sample.params
              [SubmitClick; Settled 0 (inl "offline")] Sample.filled in
  log s' = log (step Sample.isURL None Sample.params SubmitClick Sample.filled) ++
           [Call (ToastError "Something went wrong."); Call (SetLoading false)] /\
  navigations (log s') = navigations (log Sample.filled) /\
  values s' = values Sample.filled /\
  idle s' /\
  requests (log (step Sample.isURL None Sample.params SubmitClick s')) =
    requests (log s') ++ [Http (submit_request None Sample.params Sample.fields)].
Proof.
  exact (failure_keeps_form Sample.isURL None Sample.params Sample.filled
           Sample.fields "offline" (conj eq_refl eq_refl) eq_refl).
Defined.

Lemma delete_needs_confirmation_witness :
  Some Sample.billboard <> None /\
  exists before between after,
    [TrashClick; Modal Continue] =
      before ++ TrashClick :: between ++ Modal Continue :: after /\
    open (exec Sample.isURL (Some Sample.billboard) Sample.params
            (before ++ [TrashClick]) (mount (Some Sample.billboard))) = true /\
    open (exec Sample.isURL (Some Sample.billboard) Sample.params
            (before ++ TrashClick :: between) (mount (Some Sample.billboard))) = true.
Proof.
  apply (delete_needs_confirmation Sample.isURL (Some Sample.billboard)
           Sample.params [TrashClick; Modal Continue]
           (delete_request "store-1" "billboard-1")).
  - right. right. left. reflexivity.
  - reflexivity.
Defined.

Lemma rejected_delete_keeps_record_witness :
  let answer := BackingStore.delete_billboard "store-1" "billboard-1" Sample.db in
  let s2 := exec Sample.isURL (Some Sample.billboard) Sample.params
              [Modal Continue; Settled 0 answer.1] Sample.confirming in
  (exists e, answer.1 = inl e) /\
  navigations (log s2) = navigations (log Sample.confirming) /\
  answer.2 = Sample.db /\
  In (BackingStore.display_row Sample.billboard)
     (BackingStore.list_fetch "store-1" answer.2).
Proof.
  apply (proj2 (proj2 (rejected_delete_keeps_record Sample.isURL
                         (Some Sample.billboard) Sample.params Sample.confirming
                         (conj eq_refl eq_refl) eq_refl))
           Sample.db
           {| BackingStore.owner := "store-1";
              BackingStore.record := Sample.billboard |});
    [left; reflexivity|reflexivity|reflexivity|reflexivity].
Defined.

Lemma invalid_input_blocks_submit_witness :
  let s := mount None in
  let s' := step Sample.isURL None Sample.params SubmitClick s in
  log s' = log s /\
  inflight s' = inflight s /\
  loading s' = false /\
  FormMessage label_field s' =
    Some (Zod.too_small 3 (Some "Store name is required, (min 3 characters).")) /\
  FormMessage imageUrl_field s' = Some (Zod.invalid_string "url" None).
Proof.
  pose proof (invalid_input_blocks_submit Sample.isURL None Sample.params
                (mount None) "" "" eq_refl eq_refl eq_refl
                (or_introl (Nat.lt_0_succ 2)))
    as (Hlog & Hin & Hl & Hsmall & _ & Hurl).
  split; [exact Hlog|]. split; [exact Hin|]. split; [exact Hl|].
  split; [exact (Hsmall (Nat.lt_0_succ 2))|exact (Hurl eq_refl)].
Defined.
End BillboardFormFacts.

(** ** The product page *)

Module ProductPageFacts.
Import ProductPage.

Lemma render_bind {A B} (db : Database) (m : Prog PageE A) (f : A -> Prog PageE B) :
  render db (m ≫= f) =
    match render db m with
    | (inl e, evs) => (inl e, evs)
    | (inr a, evs) => let '(r, evs') := render db (f a) in (r, evs ++ evs')
    end.
Proof.
  change (m ≫= f) with (bind m f).
  induction m as [a|e|X ev k IH]; cbn [bind render].
  - by destruct (render db (f a)).
  - reflexivity.
  - rewrite IH. destruct (render db (k (answer db ev))) as [[e|a] evs];
      [reflexivity|]. by destruct (render db (f a)).
Qed.

Section Facts.
Variable isValidObjectId : string -> bool.

#[local] Abbreviation load_product := (load_product isValidObjectId).
#[local] Abbreviation ProductPage := (ProductPage isValidObjectId).

(** The join and its [catch]: the three queries are performed; the
    collections are handed over when all three are fulfilled, and
    otherwise the failure is logged and all three are empty. *)
Lemma load_dropdowns_render (db : Database) (params : Params) :
  render db (load_dropdowns params) =
    let queries : list Performed :=
      [existT _ (Category_find (storeId params));
       existT _ (Size_find (storeId params));
       existT _ (Color_find (storeId params))] in
    match categories_of db (storeId params), sizes_of db (storeId params),
          colors_of db (storeId params) with
    | inr cs, inr ss, inr os =>
        (inr (map lean_category cs, map lean_size ss, map lean_color os), queries)
    | inl e, _, _ | inr _, inl e, _ | inr _, inr _, inl e =>
        (inr ([], [], []),
         queries ++
         [existT _ (console_error "Error fetching product-related data:" e)])
    end.
Proof.
  unfold load_dropdowns, Promise_all. cbn.
  destruct (categories_of db (storeId params)),
           (sizes_of db (storeId params)),
           (colors_of db (storeId params)); reflexivity.
Qed.

Lemma load_product_render (db : Database) (params : Params) :
  render db (load_product params) =
    if bool_decide (productId params ≠ "new") && isValidObjectId (productId params)
    then
      (match product_by_id db (productId params) with
       | inl e => inl e
       | inr None => inr None
       | inr (Some found) =>
           match lean_product found with
           | inl e => inl e
           | inr product => inr (Some product)
           end
       end,
       [existT _ (Product_findById (productId params))])
    else (inr None, []).
Proof.
  unfold ProductPage.load_product.
  destruct (bool_decide (productId params ≠ "new") &&
            isValidObjectId (productId params)); [|reflexivity].
  cbn -[lean_product].
  destruct (product_by_id db (productId params)) as [e|[found|]];
    try reflexivity.
  cbn -[lean_product]. by destruct (lean_product found).
Qed.

(** The page, step by step. *)
Lemma ProductPage_render (db : Database) (params : Params)
    (product : option LeanProduct.t) (lookups : list Performed) :
  connect db = inr tt ->
  render db (load_product params) = (inr product, lookups) ->
  exists dropdowns evs,
    render db (load_dropdowns params) = (inr dropdowns, evs) /\
    render db (ProductPage params) =
      (inr {| initialData := product;
              categories := dropdowns.1.1;
              sizes := dropdowns.1.2;
              colors := dropdowns.2 |},
       existT _ connectDB :: lookups ++ evs).
Proof.
  intros Hc Hp.
  assert (exists dropdowns evs,
             render db (load_dropdowns params) = (inr dropdowns, evs))
    as (dropdowns & evs & Hd).
  { rewrite load_dropdowns_render.
    destruct (categories_of db (storeId params)),
             (sizes_of db (storeId params)),
             (colors_of db (storeId params)); cbn; eauto. }
  exists dropdowns, evs. split; [exact Hd|].
  unfold ProductPage.ProductPage.
  rewrite render_bind. cbn [await render answer]. rewrite Hc. cbn [app].
  rewrite render_bind, Hp, render_bind, Hd. cbn. by rewrite app_nil_r.
Qed.

Lemma dropdowns_no_lookup (db : Database) (params : Params) :
  forallb (fun c => negb (is_lookup c)) (render db (load_dropdowns params)).2 = true.
Proof.
  rewrite load_dropdowns_render.
  destruct (categories_of db (storeId params)),
           (sizes_of db (storeId params)),
           (colors_of db (storeId params)); reflexivity.
Qed.

(** C9: once the database is connected, a route whose product
    identifier is "new", or is not a valid object identifier, makes the
    page hand [null] as initial data to the form without looking any
    product up; and so does a valid identifier, looked up, for which
    the database holds no product. *)
Theorem create_mode_fallback (db : Database) (params : Params) :
  connect db = inr tt ->
  (productId params = "new" \/ isValidObjectId (productId params) = false ->
   exists props evs,
     render db (ProductPage params) = (inr props, evs) /\
     initialData props = None /\
     forallb (fun c => negb (is_lookup c)) evs = true) /\
  (productId params <> "new" ->
   isValidObjectId (productId params) = true ->
   product_by_id db (productId params) = inr None ->
   exists props evs,
     render db (ProductPage params) = (inr props, evs) /\
     initialData props = None /\
     In (existT _ (Product_findById (productId params))) evs).
Proof.
  intros Hc. split.
  - intros Hnew.
    assert (Hp : render db (load_product params) = (inr None, [])).
    { rewrite load_product_render.
      destruct Hnew as [->| ->]; [reflexivity|]. by rewrite andb_false_r. }
    destruct (ProductPage_render db params None [] Hc Hp)
      as (dropdowns & evs & Hd & Hpage).
    eexists _, _. split; [exact Hpage|]. split; [reflexivity|].
    cbn. pose proof (dropdowns_no_lookup db params) as Hno.
    by rewrite Hd in Hno.
  - intros Hnew Hvalid Hnone.
    assert (Hp : render db (load_product params) =
                   (inr None, [existT _ (Product_findById (productId params))])).
    { rewrite load_product_render, Hvalid, Hnone.
      by rewrite bool_decide_eq_true_2. }
    destruct (ProductPage_render db params None _ Hc Hp)
      as (dropdowns & evs & Hd & Hpage).
    eexists _, _. split; [exact Hpage|]. split; [reflexivity|].
    cbn. auto.
Qed.

(** C7, as amended: once the database is connected and the first step
    of the page has not thrown, the page renders the form whatever the
    three fetches do; when all three are fulfilled each collection is
    handed to the form; when one of them is rejected the failure is
    logged and all three collections are empty, also those whose fetch
    was fulfilled. *)
Theorem dropdowns_all_or_nothing (db : Database) (params : Params)
    (product : option LeanProduct.t) (lookups : list Performed) :
  connect db = inr tt ->
  render db (load_product params) = (inr product, lookups) ->
  exists props evs,
    render db (ProductPage params) = (inr props, evs) /\
    initialData props = product /\
    match categories_of db (storeId params), sizes_of db (storeId params),
          colors_of db (storeId params) with
    | inr cs, inr ss, inr os =>
        categories props = map lean_category cs /\
        sizes props = map lean_size ss /\
        colors props = map lean_color os /\
        existsb is_console_error evs = false
    | _, _, _ =>
        categories props = [] /\ sizes props = [] /\ colors props = [] /\
        existsb is_console_error evs = true
    end.
Proof.
  intros Hc Hp.
  destruct (ProductPage_render db params product lookups Hc Hp)
    as (dropdowns & evs & Hd & Hpage).
  eexists _, _. split; [exact Hpage|]. split; [reflexivity|].
  assert (Hlook : existsb is_console_error lookups = false).
  { rewrite load_product_render in Hp.
    destruct (bool_decide (productId params ≠ "new") &&
              isValidObjectId (productId params)); by injection Hp as _ <-. }
  cbn [categories sizes colors existsb is_console_error projT2 orb].
  rewrite existsb_app, Hlook. cbn [orb].
  rewrite load_dropdowns_render in Hd.
  destruct (categories_of db (storeId params)),
           (sizes_of db (storeId params)),
           (colors_of db (storeId params));
    injection Hd as <- <-; repeat split.
Qed.
End Facts.

(** C7, as the specification words it, fails: the categories of the
    sample database load, its sizes do not, and the form is handed no
    category. *)
Lemma individual_failures_not_tolerated :
  categories_of Sample.database "store-1" = inr [Sample.shoes] /\
  ~ tolerates_individual_failures Sample.isValidObjectId Sample.database
      Sample.new_product.
Proof.
  split; [reflexivity|].
  intros (props & Hrender & Hcats & _).
  vm_compute in Hrender. injection Hrender as <-.
  vm_compute in Hcats. discriminate.
Qed.

Lemma dropdowns_all_or_nothing_witness :
  exists props evs,
    render Sample.database (ProductPage Sample.isValidObjectId Sample.new_product) =
      (inr props, evs) /\
    initialData props = None /\
    (categories props = [] /\ sizes props = [] /\ colors props = [] /\
     existsb is_console_error evs = true).
Proof.
  apply (dropdowns_all_or_nothing Sample.isValidObjectId Sample.database
           Sample.new_product None []); reflexivity.
Defined.

Lemma create_mode_fallback_witness :
  (exists props evs,
     render Sample.database (ProductPage Sample.isValidObjectId Sample.new_product) =
       (inr props, evs) /\
     initialData props = None /\
     forallb (fun c => negb (is_lookup c)) evs = true) /\
  (exists props evs,
     render Sample.database
            (ProductPage Sample.isValidObjectId Sample.missing_product) =
       (inr props, evs) /\
     initialData props = None /\
     In (existT _ (Product_findById "0123456789abcdef01234567")) evs).
Proof.
  split.
  - apply (create_mode_fallback Sample.isValidObjectId Sample.database
             Sample.new_product eq_refl).
    left. reflexivity.
  - apply (create_mode_fallback Sample.isValidObjectId Sample.database
             Sample.missing_product eq_refl);
      [discriminate|reflexivity|reflexivity].
Defined.
End ProductPageFacts.

(** ** The setup page *)

Module SetUpPageFacts.
Import SetUpPage.

Section Facts.
Variable ModalStore : Type.
Variable isOpen : ModalStore -> bool.
Variable onOpen : ModalStore -> ModalStore.

#[local] Abbreviation effect := (effect ModalStore isOpen onOpen).
#[local] Abbreviation settle := (settle ModalStore isOpen onOpen).

(** The open action opens the modal. *)
Hypothesis onOpen_opens : forall m, isOpen (onOpen m) = true.

Lemma effect_opens (m : ModalStore) : isOpen (effect m) = true.
Proof.
  unfold SetUpPage.effect. destruct (isOpen m) eqn:Hm; cbn; [exact Hm|].
  apply onOpen_opens.
Qed.

Lemma effect_idle (m : ModalStore) : isOpen m = true -> effect m = m.
Proof. unfold SetUpPage.effect. by intros ->. Qed.

(** C10: the page renders nothing; its effect calls the open action
    when it finds the modal closed and does nothing when it finds it
    open; and from any state of the modal, the effects settle within
    two renders, with the modal open. *)
Theorem modal_always_open (m : ModalStore) (fuel : nat) :
  SetUpPage ModalStore m = None /\
  (isOpen m = false -> effect m = onOpen m) /\
  (isOpen m = true -> effect m = m) /\
  (2 <= fuel -> settle fuel m = Some (effect m) /\ isOpen (effect m) = true).
Proof.
  split; [reflexivity|]. split; [|split].
  - unfold SetUpPage.effect. by intros ->.
  - apply effect_idle.
  - intros Hfuel. split; [|apply effect_opens].
    destruct fuel as [|[|fuel]]; [lia|lia|].
    cbn [SetUpPage.settle].
    destruct (bool_decide (isOpen (effect m) = isOpen m)); [reflexivity|].
    rewrite (effect_idle (effect m)) by apply effect_opens.
    by rewrite bool_decide_eq_true_2.
Qed.
End Facts.

Lemma modal_always_open_witness :
  SetUpPage bool false = None /\
  settle bool Sample.modal_isOpen Sample.modal_onOpen 2 false = Some true /\
  Sample.modal_isOpen true = true.
Proof.
  pose proof (modal_always_open bool Sample.modal_isOpen Sample.modal_onOpen
                (fun _ => eq_refl) false 2) as (Hnull & _ & _ & Hsettle).
  destruct (Hsettle (le_n 2)) as [Hs Ho].
  split; [exact Hnull|]. split; [exact Hs|exact Ho].
Defined.
End SetUpPageFacts.

(** ** The billboard form over whole executions *)

Module BillboardTraceFacts.
Import BillboardForm BillboardTrace BillboardFormFacts.

Section Facts.
Variable isURL : string -> bool.
Variable initialData : option Billboard.
Variable params : Params.

#[local] Abbreviation step := (step isURL initialData params).
#[local] Abbreviation exec := (exec isURL initialData params).
#[local] Abbreviation submit_request := (submit_request initialData params).
#[local] Abbreviation resolver := (Zod.zodResolver (formSchema isURL)).
#[local] Abbreviation tracked := (tracked initialData params).
#[local] Abbreviation tracked_step := (tracked_step isURL initialData params).
#[local] Abbreviation submit_tail := (submit_tail initialData params).
#[local] Abbreviation delete_tail := (delete_tail params).
#[local] Abbreviation the_delete :=
  (delete_request (storeId params) (billboardId params)).

Lemma tracked_idle (s : Screen) : tracked s -> loading s = false -> idle s.
Proof. intros [?|[? _]] ?; [assumption|congruence]. Qed.

Lemma tracked_mount : tracked (mount initialData).
Proof. left. split; reflexivity. Qed.

(** Every step of a tracked screen is one of the listed steps. *)
Lemma step_tracked (ev : UiEvent) (s : Screen) :
  tracked s -> tracked_step s ev (step ev s).
Proof.
  intros Hs. destruct ev as [| |[|]|f v|i o].
  - destruct (loading s) eqn:Hl.
    + rewrite submit_click_disabled by done. constructor.
    + pose proof (tracked_idle s Hs Hl) as Hidle.
      destruct (resolver (values s)) as [errs|d] eqn:Hv.
      * unfold BillboardForm.step, Control, handleSubmit. rewrite Hl, Hv.
        by constructor.
      * destruct (submit_click isURL initialData params s d Hl Hv)
          as (k & -> & _ & Hok & Hbad).
        rewrite (proj2 Hidle). apply step_submit; [done|done|].
        intros [e|r] s'; [apply Hbad|apply Hok].
  - unfold BillboardForm.step, Control.
    destruct initialData eqn:Hd; [|constructor].
    destruct (loading s) eqn:Hl; [constructor|].
    apply step_open; congruence.
  - destruct (open s) eqn:Ho; [destruct (loading s) eqn:Hl|].
    + rewrite modal_continue_blocked by auto. constructor.
    + pose proof (tracked_idle s Hs Hl) as Hidle.
      destruct (modal_continue isURL initialData params s Ho Hl)
        as (k & -> & _ & Hok & Hbad).
      rewrite (proj2 Hidle). apply step_delete; [done|done|].
      intros [e|r] s'; [apply Hbad|apply Hok].
    + rewrite modal_continue_blocked by auto. constructor.
  - unfold BillboardForm.step, AlertModal. cbn [isOpen onClose].
    destruct (open s) eqn:Ho; [|constructor]. by apply step_close.
  - unfold BillboardForm.step, Control.
    destruct (loading s) eqn:Hl; [constructor|]. by apply step_change.
  - unfold BillboardForm.step, resume.
    destruct Hs as [[_ Hi]|(Hl & r & k & Hi & Hk)]; rewrite Hi.
    + rewrite lookup_nil. constructor.
    + destruct i as [|i]; cbn; [|constructor].
      destruct Hk as [(d & -> & Hk)|[-> Hk]]; rewrite Hk.
      * by apply (step_submit_settled _ _ _ _ d k).
      * by apply (step_delete_settled _ _ _ _ k).
Qed.

Lemma submit_tail_idle (o : Outcome) (s : Screen) :
  idle (do_cmds (submit_tail o) (with_inflight [] s)).
Proof. destruct o; split; reflexivity. Qed.

Lemma delete_tail_idle (o : Outcome) (s : Screen) :
  idle (do_cmds (delete_tail o) (with_inflight [] s)).
Proof. destruct o; split; reflexivity. Qed.

Lemma tracked_step_keeps (ev : UiEvent) (s s' : Screen) :
  tracked s -> tracked_step s ev s' -> tracked s'.
Proof.
  intros Hs Hstep. destruct Hstep as
    [ev|errs Hidle _|d k Hidle _ Hk|f v Hl|_ Hl|_|k Hidle _ Hk|d k o _ _|k o _ _].
  - exact Hs.
  - by left.
  - right. split; [reflexivity|]. exists (submit_request d), k. eauto.
  - left. apply (tracked_idle s Hs) in Hl. exact Hl.
  - left. apply (tracked_idle s Hs) in Hl. exact Hl.
  - destruct Hs as [?|(Hl & r & k & Hi & Hk)]; [by left|].
    right. split; [exact Hl|]. eauto.
  - right. split; [reflexivity|]. exists the_delete, k. eauto.
  - left. apply submit_tail_idle.
  - left. apply delete_tail_idle.
Qed.

(** Induction over the executions of the screen from its mount. *)
Lemma exec_ind (P : list UiEvent -> Screen -> Prop) :
  P [] (mount initialData) ->
  (forall evs ev s s',
      tracked s -> P evs s -> tracked_step s ev s' -> P (evs ++ [ev]) s') ->
  forall evs,
    P evs (exec evs (mount initialData)) /\ tracked (exec evs (mount initialData)).
Proof.
  intros Hmount Hstep evs.
  induction evs as [|ev evs [IH Ht]] using rev_ind; [by split; [|apply tracked_mount]|].
  rewrite exec_snoc.
  pose proof (step_tracked ev _ Ht) as Hone. split.
  - by apply (Hstep evs ev (exec evs (mount initialData))).
  - by apply (tracked_step_keeps ev (exec evs (mount initialData))).
Qed.

Lemma open_submit_tail (o : Outcome) (s : Screen) :
  open (do_cmds (submit_tail o) s) = open s.
Proof. by destruct o. Qed.

Lemma open_delete_tail (o : Outcome) (s : Screen) :
  open (do_cmds (delete_tail o) s) = false.
Proof. by destruct o. Qed.

(** The modal is open in edit mode only. *)
Lemma open_in_edit_mode (evs : list UiEvent) :
  open (exec evs (mount initialData)) = true -> initialData <> None.
Proof.
  apply (exec_ind (fun _ s => open s = true -> initialData <> None)); [discriminate|].
  intros _ ev s s' _ IH Hstep. destruct Hstep; try exact IH; try done.
  - by rewrite open_submit_tail.
  - by rewrite open_delete_tail.
Qed.

(** X1: in every execution from the mount, every request the screen has
    sent is either the delete of the billboard of the route, in edit
    mode, or the create (create mode) or update (edit mode) request whose
    data is a label of 3 to 25 characters and an image URL the platform
    parses, and nothing else. *)
Theorem every_request_is_valid (evs : list UiEvent) (r : Request) :
  In (Http r) (log (exec evs (mount initialData))) ->
  (initialData <> None /\
   r = delete_request (storeId params) (billboardId params)) \/
  (exists l u,
      3 <= String.length l <= 25 /\ isURL u = true /\
      r = submit_request (<["label" := JsStr l]> (<["imageUrl" := JsStr u]> ∅))).
Proof.
  revert r.
  apply (exec_ind (fun _ s => (open s = true -> initialData <> None) /\
                              forall r, In (Http r) (log s) -> _)); [by split|].
  intros _ ev s s' _ [Hopen IH] Hstep.
  destruct Hstep as
    [ev|errs _ _|d k _ Hv _|f v _|Hd _|_|k _ Ho _|d k o _ _|k o _ _];
    try (split; [exact Hopen|exact IH]).
  - split; [exact Hopen|]. intros r. cbn. rewrite !in_app_iff. cbn.
    intros [[?|[?|[]]]|[[= <-]|[]]]; [by apply IH|discriminate|].
    right. apply ZodFacts.resolver_accepts in Hv as (l & u & _ & _ & ? & ? & ->).
    eauto.
  - split; [done|]. intros r. cbn. rewrite in_app_iff. cbn.
    intros [?|[?|[]]]; [by apply IH|discriminate].
  - split; [done|]. intros r. cbn. rewrite in_app_iff. cbn.
    intros [?|[?|[]]]; [by apply IH|discriminate].
  - split; [done|]. intros r. cbn. rewrite !in_app_iff. cbn.
    intros [[?|[?|[]]]|[[= <-]|[]]]; [by apply IH|discriminate|].
    left. split; [by apply Hopen|reflexivity].
  - split; [by rewrite open_submit_tail|]. intros r.
    rewrite do_cmds_log, in_app_iff. intros [?|?%not_request_call]; [by apply IH|done].
  - split; [by rewrite open_delete_tail|]. intros r.
    rewrite do_cmds_log, in_app_iff. intros [?|?%not_request_call]; [by apply IH|done].
Qed.

(** *** The order of the log *)

Lemma guarded_calls (l : list Effect) (cmds : list Cmd) :
  (forall i r, l !! i = Some (Http r) ->
     exists j, i = S j /\ l !! j = Some (Call (SetLoading true))) ->
  forall i r, (l ++ map Call cmds) !! i = Some (Http r) ->
    exists j, i = S j /\ (l ++ map Call cmds) !! j = Some (Call (SetLoading true)).
Proof.
  intros IH i r [Hi|[_ Hi]]%lookup_app_Some.
  - destruct (IH i r Hi) as (j & -> & Hj). exists j. split; [reflexivity|].
    by apply lookup_app_l_Some.
  - apply list_elem_of_lookup_2, list_elem_of_In, not_request_call in Hi. done.
Qed.

Lemma guarded_send (l : list Effect) (r0 : Request) :
  (forall i r, l !! i = Some (Http r) ->
     exists j, i = S j /\ l !! j = Some (Call (SetLoading true))) ->
  forall i r, ((l ++ [Call (SetLoading true)]) ++ [Http r0]) !! i = Some (Http r) ->
    exists j, i = S j /\
      ((l ++ [Call (SetLoading true)]) ++ [Http r0]) !! j = Some (Call (SetLoading true)).
Proof.
  intros IH i r. rewrite <- app_assoc. cbn [app].
  intros [Hi|[Hlen Hi]]%lookup_app_Some.
  - destruct (IH i r Hi) as (j & -> & Hj). exists j. split; [reflexivity|].
    by apply lookup_app_l_Some.
  - destruct (i - length l) as [|[|n]] eqn:Hn; [discriminate| |discriminate].
    exists (length l). split; [lia|].
    rewrite lookup_app_r by lia. by rewrite Nat.sub_diag.
Qed.

(** X2: in every execution from the mount, the entry of the log just
    before a request is [setLoading(true)]: no request, of a submission
    or of a delete, is sent before the submitting flag is set. *)
Theorem loading_set_before_every_request (evs : list UiEvent) (i : nat)
    (r : Request) :
  log (exec evs (mount initialData)) !! i = Some (Http r) ->
  exists j,
    i = S j /\
    log (exec evs (mount initialData)) !! j = Some (Call (SetLoading true)).
Proof.
  revert i r.
  apply (exec_ind (fun _ s => forall i r, log s !! i = Some (Http r) ->
           exists j, i = S j /\ log s !! j = Some (Call (SetLoading true))));
    [intros i r Hi; cbn in Hi; by rewrite lookup_nil in Hi|].
  intros _ ev s s' _ IH Hstep.
  destruct Hstep as
    [ev|errs _ _|d k _ _ _|f v _|_ _|_|k _ _ _|d k o _ _|k o _ _];
    try exact IH.
  - apply guarded_send, IH.
  - apply (guarded_calls (log s) [SetOpen true]), IH.
  - apply (guarded_calls (log s) [SetOpen false]), IH.
  - apply guarded_send, IH.
  - rewrite do_cmds_log. apply guarded_calls, IH.
  - rewrite do_cmds_log. apply guarded_calls, IH.
Qed.

(** *** Navigation and notifications *)

Lemma navigations_submit_tail (o : Outcome) :
  navigations (map Call (submit_tail o)) =
  match o with
  | inr _ => [Call (RouterPush ("/" +:+ storeId params +:+ "/billboards"))]
  | inl _ => []
  end.
Proof. by destruct o. Qed.

Lemma navigations_delete_tail (o : Outcome) :
  navigations (map Call (delete_tail o)) =
  match o with
  | inr _ => [Call (RouterPush ("/" +:+ storeId params +:+ "/billboards"))]
  | inl _ => []
  end.
Proof. by destruct o. Qed.

(** X3: in every execution from the mount, the screen has navigated at
    most once per request that was fulfilled, and only to the list of
    billboards of the store of the route: without a fulfilled request it
    never leaves the form. *)
Theorem navigates_only_after_fulfilment (evs : list UiEvent) :
  length (navigations (log (exec evs (mount initialData)))) <=
    length (List.filter is_fulfilment evs) /\
  forall href,
    In (Call (RouterPush href)) (log (exec evs (mount initialData))) ->
    href = "/" +:+ storeId params +:+ "/billboards".
Proof.
  apply (exec_ind (fun evs s =>
           length (navigations (log s)) <= length (List.filter is_fulfilment evs) /\
           forall href, In (Call (RouterPush href)) (log s) -> _)).
  { split; [reflexivity|]. intros href []. }
  clear evs. intros evs ev s s' _ [Hcount Hto] Hstep.
  rewrite List.filter_app, length_app.
  destruct Hstep as
    [ev|errs _ _|d k _ _ _|f v _|_ _|_|k _ _ _|d k o _ _|k o _ _];
    try (split; [cbn [log with_errors field_onChange with_values]; lia|exact Hto]).
  - split.
    + cbn [log with_inflight logged do_cmd with_loading with_errors].
      rewrite !navigations_app. cbn. rewrite !app_nil_r. lia.
    + intros href. cbn. rewrite !in_app_iff. cbn.
      intros [[?|[?|[]]]|[?|[]]]; [by apply Hto|discriminate|discriminate].
  - split.
    + cbn [log do_cmd with_open logged]. rewrite navigations_app. cbn.
      rewrite app_nil_r. lia.
    + intros href. cbn. rewrite in_app_iff. cbn.
      intros [?|[?|[]]]; [by apply Hto|discriminate].
  - split.
    + cbn [log do_cmd with_open logged]. rewrite navigations_app. cbn.
      rewrite app_nil_r. lia.
    + intros href. cbn. rewrite in_app_iff. cbn.
      intros [?|[?|[]]]; [by apply Hto|discriminate].
  - split.
    + cbn [log with_inflight logged do_cmd with_loading].
      rewrite !navigations_app. cbn. rewrite !app_nil_r. lia.
    + intros href. cbn. rewrite !in_app_iff. cbn.
      intros [[?|[?|[]]]|[?|[]]]; [by apply Hto|discriminate|discriminate].
  - split.
    + rewrite do_cmds_log, navigations_app, navigations_submit_tail, length_app.
      cbn [log with_inflight]. destruct o; cbn; lia.
    + intros href. rewrite do_cmds_log, in_app_iff. cbn [log with_inflight].
      intros [?|Hin]; [by apply Hto|].
      destruct o; cbn in Hin; intuition congruence.
  - split.
    + rewrite do_cmds_log, navigations_app, navigations_delete_tail, length_app.
      cbn [log with_inflight]. destruct o; cbn; lia.
    + intros href. rewrite do_cmds_log, in_app_iff. cbn [log with_inflight].
      intros [?|Hin]; [by apply Hto|].
      destruct o; cbn in Hin; intuition congruence.
Qed.

Lemma toasts_app (l1 l2 : list Effect) :
  toasts (l1 ++ l2) = toasts l1 ++ toasts l2.
Proof. apply List.filter_app. Qed.

(** X4: in every execution from the mount, every request sent has either
    been answered by exactly one notification or is still in flight: the
    requests in the log are as many as the notifications in the log plus
    the requests in flight. *)
Theorem one_notification_per_request (evs : list UiEvent) :
  let s := exec evs (mount initialData) in
  length (requests (log s)) = length (toasts (log s)) + length (inflight s).
Proof.
  apply (exec_ind (fun _ s =>
           length (requests (log s)) = length (toasts (log s)) + length (inflight s)));
    [reflexivity|].
  intros _ ev s s' _ IH Hstep.
  destruct Hstep as
    [ev|errs _ _|d k [_ Hi] _ _|f v _|_ _|_|k [_ Hi] _ _|d k o _ Hi|k o _ Hi];
    try exact IH.
  - cbn [log inflight with_inflight logged do_cmd with_loading with_errors].
    rewrite !requests_app, !toasts_app, !length_app. rewrite Hi in IH.
    cbn in *. lia.
  - cbn [log inflight do_cmd with_open logged].
    rewrite requests_app, toasts_app, !length_app. cbn. lia.
  - cbn [log inflight do_cmd with_open logged].
    rewrite requests_app, toasts_app, !length_app. cbn. lia.
  - cbn [log inflight with_inflight logged do_cmd with_loading].
    rewrite !requests_app, !toasts_app, !length_app. rewrite Hi in IH.
    cbn in *. lia.
  - rewrite do_cmds_log, do_cmds_inflight, requests_app, toasts_app, !length_app,
      requests_calls. rewrite Hi in IH. cbn [log inflight with_inflight].
    destruct o; cbn in *; lia.
  - rewrite do_cmds_log, do_cmds_inflight, requests_app, toasts_app, !length_app,
      requests_calls. rewrite Hi in IH. cbn [log inflight with_inflight].
    destruct o; cbn in *; lia.
Qed.

(** *** The field values *)

Lemma default_fields :
  exists l u,
    defaultValues initialData !! "label" = Some (JsStr l) /\
    defaultValues initialData !! "imageUrl" = Some (JsStr u).
Proof.
  unfold defaultValues. destruct initialData as [b|].
  - exists (label b), (imageUrl b). split; reflexivity.
  - exists "", "". split; reflexivity.
Qed.

(** X5: in every execution from the mount, the two fields of the form
    hold strings: the default values give both, in create mode and in
    edit mode, and a change of a field sets a string; the resolver never
    meets a field that is missing or of another type. *)
Theorem fields_hold_strings (evs : list UiEvent) :
  exists l u,
    values (exec evs (mount initialData)) !! "label" = Some (JsStr l) /\
    values (exec evs (mount initialData)) !! "imageUrl" = Some (JsStr u).
Proof.
  apply (exec_ind (fun _ s => exists l u,
           values s !! "label" = Some (JsStr l) /\
           values s !! "imageUrl" = Some (JsStr u))); [apply default_fields|].
  intros _ ev s s' _ (l & u & Hl & Hu) Hstep.
  destruct Hstep as
    [ev|errs _ _|d k _ _ _|f v _|_ _|_|k _ _ _|d k o _ _|k o _ _];
    try (exists l, u; split; assumption).
  - destruct f; cbn [values field_onChange with_values field_name].
    + exists v, u. split; [apply lookup_insert_eq|by rewrite lookup_insert_ne].
    + exists l, v. split; [by rewrite lookup_insert_ne|apply lookup_insert_eq].
  - exists l, u. by rewrite do_cmds_values.
  - exists l, u. by rewrite do_cmds_values.
Qed.

(** X7: the edit form, untouched, submits the record it was given: when
    the label of the record has 3 to 25 characters and its image URL
    parses, the first submission sends one PATCH for the billboard of the
    route whose data is the label and the image URL of the record, without
    its identifier and its user. *)
Theorem untouched_edit_submits_record (b : Billboard) :
  initialData = Some b ->
  3 <= String.length (label b) <= 25 ->
  isURL (imageUrl b) = true ->
  requests (log (step SubmitClick (mount initialData))) =
    [Http (update_request (storeId params) (billboardId params)
             (<["label" := JsStr (label b)]>
                (<["imageUrl" := JsStr (imageUrl b)]> ∅)))].
Proof.
  intros Hd Hlen Hurl.
  assert (Hv : resolver (values (mount initialData)) =
               inr (<["label" := JsStr (label b)]>
                      (<["imageUrl" := JsStr (imageUrl b)]> ∅))).
  { apply ZodFacts.resolver_valid; [|  |exact Hlen|exact Hurl];
      rewrite Hd; reflexivity. }
  destruct (submit_click isURL initialData params (mount initialData) _ eq_refl Hv)
    as (k & -> & _).
  unfold BillboardForm.submit_request. rewrite Hd. reflexivity.
Qed.

(** X8: what the user typed last is what is sent: from the idle screen,
    whatever the fields held, after the label was changed to [l] and the
    image URL to [u], both satisfying the schema, a submission sends one
    request whose data is exactly [l] and [u]. *)
Theorem typed_values_are_sent (s : Screen) (l u : string) :
  idle s ->
  3 <= String.length l <= 25 ->
  isURL u = true ->
  requests (log (exec [Change label_field l; Change imageUrl_field u; SubmitClick] s)) =
    requests (log s) ++
    [Http (submit_request (<["label" := JsStr l]> (<["imageUrl" := JsStr u]> ∅)))].
Proof.
  intros [Hl Hi] Hlen Hurl.
  unfold BillboardForm.exec. cbn [fold_left].
  unfold BillboardForm.step at 3. unfold Control. rewrite Hl.
  unfold BillboardForm.step at 2. unfold Control.
  cbn [loading field_onChange with_values]. rewrite Hl.
  set (s2 := field_onChange imageUrl_field u (field_onChange label_field l s)).
  assert (Hv : resolver (values s2) =
               inr (<["label" := JsStr l]> (<["imageUrl" := JsStr u]> ∅))).
  { apply ZodFacts.resolver_valid; [| |exact Hlen|exact Hurl]; subst s2;
      cbn [values field_onChange with_values field_name].
    - rewrite lookup_insert_ne by done. apply lookup_insert_eq.
    - apply lookup_insert_eq. }
  destruct (submit_click isURL initialData params s2 _ Hl Hv) as (k & -> & _).
  cbn [log with_inflight logged do_cmd with_loading with_errors].
  rewrite !requests_app. cbn. by rewrite app_nil_r.
Qed.

(** X9: the image upload control shows the image URL of the form when
    there is one and nothing otherwise: with the control enabled, after an
    upload of a URL that is not empty it shows exactly that URL, and after
    a removal it shows no image. *)
Theorem image_shown_after_upload_and_removal (s : Screen) (u : string) :
  loading s = false ->
  u <> "" ->
  ImageUpload_value (step (Change imageUrl_field u) s) = [JsStr u] /\
  ImageUpload_value (step ImageUpload_onRemove (step (Change imageUrl_field u) s)) = [].
Proof.
  intros Hl Hu.
  unfold ImageUpload_onRemove, BillboardForm.step, Control. rewrite Hl.
  cbn [loading field_onChange with_values]. rewrite Hl.
  unfold ImageUpload_value, get_prop.
  cbn [values field_onChange with_values field_name].
  rewrite !lookup_insert_eq. cbn [default from_option id truthy].
  split; [|reflexivity].
  destruct (String.eqb u "") eqn:He; [|reflexivity].
  apply String.eqb_eq in He. contradiction.
Qed.

(** *** Deleting *)

(** X10: a confirmed delete that is fulfilled sends one DELETE, without
    data, for the billboard of the route, then navigates to the list of
    billboards, refreshes, shows "Billboard deleted successfully", clears
    the submitting flag and closes the modal; the field values are
    untouched. *)
Theorem fulfilled_delete_returns_to_list (s : Screen) (r : AxiosResponse) :
  idle s -> open s = true ->
  let s' := exec [Modal Continue; Settled 0 (inr r)] s in
  log s' = log s ++
    [Call (SetLoading true);
     Http {| method := DELETE;
             url := "/api/" +:+ storeId params +:+ "/billboards/" +:+ billboardId params;
             data := None |};
     Call (RouterPush ("/" +:+ storeId params +:+ "/billboards"));
     Call RouterRefresh;
     Call (ToastSuccess "Billboard deleted successfully");
     Call (SetLoading false);
     Call (SetOpen false)] /\
  open s' = false /\ idle s' /\ values s' = values s.
Proof.
  intros Hidle Ho s'. subst s'.
  rewrite (delete_round isURL initialData params s (inr r) Hidle Ho).
  split; [|by repeat split].
  rewrite do_cmds_log. cbn [log with_inflight logged do_cmd with_loading].
  rewrite <- !app_assoc. reflexivity.
Qed.
End Facts.

(** *** The properties on the sample data *)

Lemma every_request_is_valid_witness :
  (@None Billboard <> None /\
   create_request "store-1" Sample.fields = delete_request "store-1" "billboard-1") \/
  (exists l u,
      3 <= String.length l <= 25 /\ Sample.isURL u = true /\
      create_request "store-1" Sample.fields =
        submit_request None Sample.params
          (<["label" := JsStr l]> (<["imageUrl" := JsStr u]> ∅))).
Proof.
  apply (every_request_is_valid Sample.isURL None Sample.params
           [Change label_field "Summer Sale";
            Change imageUrl_field "https://host/img.png"; SubmitClick]
           (create_request "store-1" Sample.fields)).
  right. left. reflexivity.
Defined.

Lemma loading_set_before_every_request_witness :
  exists j,
    1 = S j /\
    log (exec Sample.isURL None Sample.params [SubmitClick] Sample.filled) !! j =
      Some (Call (SetLoading true)).
Proof.
  apply (loading_set_before_every_request Sample.isURL None Sample.params
           [Change label_field "Summer Sale";
            Change imageUrl_field "https://host/img.png"; SubmitClick]
           1 (create_request "store-1" Sample.fields)).
  reflexivity.
Defined.

Lemma untouched_edit_submits_record_witness :
  requests (log (step Sample.isURL (Some Sample.billboard) Sample.params SubmitClick
                   (mount (Some Sample.billboard)))) =
    [Http (update_request "store-1" "billboard-1" Sample.fields)].
Proof.
  apply (untouched_edit_submits_record Sample.isURL (Some Sample.billboard)
           Sample.params Sample.billboard eq_refl).
  - cbn. lia.
  - reflexivity.
Defined.

Lemma typed_values_are_sent_witness :
  requests (log (exec Sample.isURL None Sample.params
                   [Change label_field "Summer Sale";
                    Change imageUrl_field "https://host/img.png"; SubmitClick]
                   (mount None))) =
    requests (log (mount None)) ++
    [Http (submit_request None Sample.params Sample.fields)].
Proof.
  apply (typed_values_are_sent Sample.isURL None Sample.params (mount None)
           "Summer Sale" "https://host/img.png" (conj eq_refl eq_refl)).
  - cbn. lia.
  - reflexivity.
Defined.

Lemma image_shown_after_upload_and_removal_witness :
  ImageUpload_value
    (step Sample.isURL None Sample.params
       (Change imageUrl_field "https://host/img.png") (mount None)) =
    [JsStr "https://host/img.png"] /\
  ImageUpload_value
    (step Sample.isURL None Sample.params ImageUpload_onRemove
       (step Sample.isURL None Sample.params
          (Change imageUrl_field "https://host/img.png") (mount None))) = [].
Proof.
  apply (image_shown_after_upload_and_removal Sample.isURL None Sample.params
           (mount None) "https://host/img.png" eq_refl).
  discriminate.
Defined.

Lemma fulfilled_delete_returns_to_list_witness :
  let s' := exec Sample.isURL (Some Sample.billboard) Sample.params
              [Modal Continue; Settled 0 (inr {| status := 200 |})]
              Sample.confirming in
  log s' = log Sample.confirming ++
    [Call (SetLoading true);
     Http {| method := DELETE; url := "/api/store-1/billboards/billboard-1";
             data := None |};
     Call (RouterPush "/store-1/billboards");
     Call RouterRefresh;
     Call (ToastSuccess "Billboard deleted successfully");
     Call (SetLoading false);
     Call (SetOpen false)] /\
  open s' = false /\ idle s' /\ values s' = values Sample.confirming.
Proof.
  exact (fulfilled_delete_returns_to_list Sample.isURL (Some Sample.billboard)
           Sample.params Sample.confirming {| status := 200 |}
           (conj eq_refl eq_refl) eq_refl).
Defined.
End BillboardTraceFacts.

(** ** More on the schema of the billboard form *)

Module SchemaFacts.
Import BillboardForm.

Section Schema.
Variable isURL : string -> bool.

(** X11: the resolver of the form accepts exactly the values whose label
    is a string of 3 to 25 characters and whose image URL is a string the
    platform parses, and what it hands over is made of these two fields
    alone, whatever else the values held. *)
Theorem schema_accepts_exactly (v d : JsObject) :
  Zod.zodResolver (formSchema isURL) v = inr d <->
  exists l u,
    v !! "label" = Some (JsStr l) /\
    v !! "imageUrl" = Some (JsStr u) /\
    3 <= String.length l <= 25 /\
    isURL u = true /\
    d = <["label" := JsStr l]> (<["imageUrl" := JsStr u]> ∅).
Proof.
  split; [apply ZodFacts.resolver_accepts|].
  intros (l & u & Hl & Hu & Hlen & Hurl & ->).
  by apply ZodFacts.resolver_valid.
Qed.

(** X12: parsing is idempotent: data the resolver has handed over is
    accepted by the resolver again, unchanged. *)
Theorem schema_idempotent (v d : JsObject) :
  Zod.zodResolver (formSchema isURL) v = inr d ->
  Zod.zodResolver (formSchema isURL) d = inr d.
Proof.
  intros (l & u & _ & _ & Hlen & Hurl & ->)%ZodFacts.resolver_accepts.
  by apply ZodFacts.resolver_valid.
Qed.

Lemma z_string_issues (checks : list Zod.Check) (v : JsVal) (issues : list Zod.Issue) :
  Zod.z_string isURL checks v = inl issues -> issues <> [].
Proof.
  unfold Zod.z_string. destruct v; try (intros [= <-]; discriminate).
  destruct (omap _ checks); [discriminate|]. intros [= <-]. discriminate.
Qed.

(** X13: a submission is never blocked without a message: when the
    resolver rejects the values, whatever they are, the errors hold an
    issue for the label or for the image URL, the two fields under which
    the form renders a message. *)
Theorem rejection_names_a_field (v : JsObject) (errs : gmap string Zod.Issue) :
  Zod.zodResolver (formSchema isURL) v = inl errs ->
  is_Some (errs !! "label") \/ is_Some (errs !! "imageUrl").
Proof.
  unfold Zod.zodResolver, formSchema, Zod.z_object. cbn [Zod.parse_shape].
  destruct (Zod.z_string isURL [Zod.url None] (get_prop v "imageUrl"))
    as [own_u|vu] eqn:Hu;
    destruct (Zod.z_string isURL _ (get_prop v "label")) as [own_l|vl] eqn:Hl.
  - apply z_string_issues in Hl. destruct own_l as [|i own_l]; [done|].
    cbn. intros [= <-]. left. rewrite lookup_insert_eq. eauto.
  - apply z_string_issues in Hu. destruct own_u as [|i own_u]; [done|].
    cbn. intros [= <-]. right. rewrite lookup_insert_eq. eauto.
  - apply z_string_issues in Hl. destruct own_l as [|i own_l]; [done|].
    cbn. intros [= <-]. left. rewrite lookup_insert_eq. eauto.
  - cbn. discriminate.
Qed.
End Schema.

Lemma schema_idempotent_witness :
  Zod.zodResolver (formSchema Sample.isURL) Sample.fields = inr Sample.fields.
Proof.
  exact (schema_idempotent Sample.isURL
           (values (mount (Some Sample.billboard))) Sample.fields eq_refl).
Defined.

Lemma rejection_names_a_field_witness :
  is_Some (errors (step Sample.isURL None Sample.params SubmitClick (mount None))
             !! "label") \/
  is_Some (errors (step Sample.isURL None Sample.params SubmitClick (mount None))
             !! "imageUrl").
Proof.
  exact (rejection_names_a_field Sample.isURL (values (mount None))
           (errors (step Sample.isURL None Sample.params SubmitClick (mount None)))
           eq_refl).
Defined.
End SchemaFacts.

(** ** More on the product page *)

Module ProductPageMoreFacts.
Import ProductPage ProductPageFacts.

Section Facts.
Variable isValidObjectId : string -> bool.

#[local] Abbreviation load_product := (load_product isValidObjectId).
#[local] Abbreviation ProductPage := (ProductPage isValidObjectId).

Lemma load_dropdowns_returns (db : Database) (params : Params) :
  exists dropdowns evs, render db (load_dropdowns params) = (inr dropdowns, evs).
Proof.
  rewrite load_dropdowns_render.
  destruct (categories_of db (storeId params)),
           (sizes_of db (storeId params)),
           (colors_of db (storeId params)); cbn; eauto.
Qed.

(** When the page renders, it has gone through its three steps. *)
Lemma ProductPage_render_inv (db : Database) (params : Params)
    (props : ProductFormProps) (evs : list Performed) :
  render db (ProductPage params) = (inr props, evs) ->
  connect db = inr tt /\
  exists lookups dropdowns devs,
    render db (load_product params) = (inr (initialData props), lookups) /\
    render db (load_dropdowns params) = (inr dropdowns, devs) /\
    categories props = dropdowns.1.1 /\
    sizes props = dropdowns.1.2 /\
    colors props = dropdowns.2 /\
    evs = existT _ connectDB :: lookups ++ devs.
Proof.
  unfold ProductPage.ProductPage. rewrite render_bind. cbn [await render answer].
  destruct (connect db) as [e|[]]; [discriminate|].
  cbn [app]. rewrite render_bind.
  destruct (render db (load_product params)) as [[e|product] lookups];
    [discriminate|].
  rewrite render_bind.
  destruct (load_dropdowns_returns db params) as (dropdowns & devs & Hd).
  rewrite Hd. cbn. rewrite app_nil_r. intros [= <- <-].
  split; [reflexivity|]. by exists lookups, dropdowns, devs.
Qed.

(** X14: in edit mode, once the database is connected, a valid
    identifier other than "new" is looked up once, and the document
    found, when its three references are there, is handed to the form as
    initial data, its identifier and its three references turned into
    text, its other fields as they are. *)
Theorem found_product_is_initial_data (db : Database) (params : Params)
    (found : FoundProduct.t) (category size color : ObjectId) :
  connect db = inr tt ->
  productId params <> "new" ->
  isValidObjectId (productId params) = true ->
  product_by_id db (productId params) = inr (Some found) ->
  FoundProduct.categoryId found = Some category ->
  FoundProduct.sizeId found = Some size ->
  FoundProduct.colorId found = Some color ->
  exists props evs,
    render db (ProductPage params) = (inr props, evs) /\
    initialData props =
      Some {| LeanProduct._id := toString (FoundProduct._id found);
              LeanProduct.name := FoundProduct.name found;
              LeanProduct.price := FoundProduct.price found;
              LeanProduct.isFeatured := FoundProduct.isFeatured found;
              LeanProduct.isArchived := FoundProduct.isArchived found;
              LeanProduct.categoryId := toString category;
              LeanProduct.sizeId := toString size;
              LeanProduct.colorId := toString color;
              LeanProduct.images := FoundProduct.images found |} /\
    List.filter is_lookup evs = [existT _ (Product_findById (productId params))].
Proof.
  intros Hc Hnew Hvalid Hfound Hcat Hsize Hcolor.
  assert (Hp : exists product,
             render db (load_product params) =
               (inr (Some product),
                [existT _ (Product_findById (productId params))]) /\
             product =
               {| LeanProduct._id := toString (FoundProduct._id found);
                  LeanProduct.name := FoundProduct.name found;
                  LeanProduct.price := FoundProduct.price found;
                  LeanProduct.isFeatured := FoundProduct.isFeatured found;
                  LeanProduct.isArchived := FoundProduct.isArchived found;
                  LeanProduct.categoryId := toString category;
                  LeanProduct.sizeId := toString size;
                  LeanProduct.colorId := toString color;
                  LeanProduct.images := FoundProduct.images found |}).
  { eexists. split; [|reflexivity].
    rewrite load_product_render, Hvalid, Hfound, bool_decide_eq_true_2 by done.
    unfold lean_product. by rewrite Hcat, Hsize, Hcolor. }
  destruct Hp as (product & Hp & ->).
  destruct (ProductPage_render isValidObjectId db params _ _ Hc Hp)
    as (dropdowns & devs & Hd & Hpage).
  eexists _, _. split; [exact Hpage|]. split; [reflexivity|].
  cbn. f_equal.
  pose proof (dropdowns_no_lookup db params) as Hno. rewrite Hd in Hno.
  cbn in Hno. clear -Hno. induction devs as [|c devs IH]; [reflexivity|].
  cbn in *. apply andb_true_iff in Hno as [Hc Hno].
  destruct (is_lookup c); [discriminate|]. by apply IH.
Qed.

(** X20: the conversion of the document found is outside any [try]: when
    one of its three references is not there, [.toString()] throws, the
    page throws with it, and the three collections are not fetched. *)
Theorem missing_reference_throws (db : Database) (params : Params)
    (found : FoundProduct.t) :
  connect db = inr tt ->
  productId params <> "new" ->
  isValidObjectId (productId params) = true ->
  product_by_id db (productId params) = inr (Some found) ->
  FoundProduct.categoryId found = None \/
  FoundProduct.sizeId found = None \/
  FoundProduct.colorId found = None ->
  exists e,
    render db (ProductPage params) =
      (inl e, [existT _ connectDB; existT _ (Product_findById (productId params))]).
Proof.
  intros Hc Hnew Hvalid Hfound Hmissing.
  assert (Hlean : exists e, lean_product found = inl e).
  { unfold lean_product.
    destruct (FoundProduct.categoryId found); [|cbn; eauto].
    destruct (FoundProduct.sizeId found); [|cbn; eauto].
    destruct (FoundProduct.colorId found); [|cbn; eauto].
    destruct Hmissing as [?|[?|?]]; discriminate. }
  destruct Hlean as [e He]. exists e.
  unfold ProductPage.ProductPage.
  rewrite render_bind. cbn [await render answer]. rewrite Hc. cbn [app].
  rewrite render_bind, load_product_render, Hvalid, Hfound, He.
  by rewrite bool_decide_eq_true_2.
Qed.

(** X15: when the connection to the database fails, the page throws what
    the connection threw and has queried nothing: no product is looked up
    and no collection is fetched. *)
Theorem connection_failure_throws (db : Database) (params : Params) (e : Error) :
  connect db = inl e ->
  render db (ProductPage params) = (inl e, [existT _ connectDB]).
Proof.
  intros Hc. unfold ProductPage.ProductPage.
  rewrite render_bind. cbn [await render answer]. by rewrite Hc.
Qed.

(** X16: a product lookup that is rejected is not caught: unlike a
    failure of the dropdown fetches, it makes the page throw, and the
    three collections are not fetched. *)
Theorem lookup_failure_throws (db : Database) (params : Params) (e : Error) :
  connect db = inr tt ->
  productId params <> "new" ->
  isValidObjectId (productId params) = true ->
  product_by_id db (productId params) = inl e ->
  render db (ProductPage params) =
    (inl e, [existT _ connectDB; existT _ (Product_findById (productId params))]).
Proof.
  intros Hc Hnew Hvalid Hfail. unfold ProductPage.ProductPage.
  rewrite render_bind. cbn [await render answer]. rewrite Hc. cbn [app].
  rewrite render_bind, load_product_render, Hvalid, Hfail.
  by rewrite bool_decide_eq_true_2.
Qed.

(** X17: whenever the page renders, what it has performed is, in this
    order: the connection; at most one lookup, of the product identifier
    of the route; the fetches of the categories, the sizes and the colors,
    each for the store of the route; and at most one error logged. *)
Theorem queries_of_a_rendered_page (db : Database) (params : Params)
    (props : ProductFormProps) (evs : list Performed) :
  render db (ProductPage params) = (inr props, evs) ->
  exists lookups errors,
    evs = [existT _ connectDB] ++ lookups ++
          [existT _ (Category_find (storeId params));
           existT _ (Size_find (storeId params));
           existT _ (Color_find (storeId params))] ++ errors /\
    (lookups = [] \/ lookups = [existT _ (Product_findById (productId params))]) /\
    (errors = [] \/
     exists e, errors =
       [existT _ (console_error "Error fetching product-related data:" e)]).
Proof.
  intros (_ & lookups & dropdowns & devs & Hp & Hd & _ & _ & _ & ->)%ProductPage_render_inv.
  rewrite load_product_render in Hp. rewrite load_dropdowns_render in Hd.
  exists lookups.
  assert (Hlook : lookups = [] \/
                  lookups = [existT _ (Product_findById (productId params))]).
  { destruct (bool_decide (productId params ≠ "new") &&
              isValidObjectId (productId params));
      injection Hp as _ <-; auto. }
  destruct (categories_of db (storeId params)),
           (sizes_of db (storeId params)),
           (colors_of db (storeId params));
    injection Hd as _ <-; eexists; (split; [reflexivity|]); split; eauto.
Qed.

(** X18: the store of the route plays no part in which product is
    loaded: two routes with the same product identifier hand the same
    initial data to the form, whatever their stores; the lookup is by
    identifier alone. *)
Theorem initial_data_ignores_store (db : Database) (p1 p2 : Params)
    (props1 props2 : ProductFormProps) (evs1 evs2 : list Performed) :
  productId p1 = productId p2 ->
  render db (ProductPage p1) = (inr props1, evs1) ->
  render db (ProductPage p2) = (inr props2, evs2) ->
  initialData props1 = initialData props2.
Proof.
  intros Hid
    (_ & l1 & _ & _ & H1 & _)%ProductPage_render_inv
    (_ & l2 & _ & _ & H2 & _)%ProductPage_render_inv.
  rewrite load_product_render in H1, H2. rewrite Hid in H1.
  rewrite H1 in H2. by injection H2.
Qed.
End Facts.

Lemma found_product_is_initial_data_witness :
  exists props evs,
    render SampleMore.stocked
           (ProductPage Sample.isValidObjectId Sample.missing_product) =
      (inr props, evs) /\
    initialData props =
      Some {| LeanProduct._id := "0123456789abcdef01234567";
              LeanProduct.name := "Sneaker";
              LeanProduct.price := 50%Z;
              LeanProduct.isFeatured := true;
              LeanProduct.isArchived := false;
              LeanProduct.categoryId := "c1";
              LeanProduct.sizeId := "s1";
              LeanProduct.colorId := "k1";
              LeanProduct.images := ["https://host/sneaker.png"] |} /\
    List.filter is_lookup evs =
      [existT _ (Product_findById "0123456789abcdef01234567")].
Proof.
  apply (found_product_is_initial_data Sample.isValidObjectId SampleMore.stocked
           Sample.missing_product SampleMore.sneaker
           {| toString := "c1" |} {| toString := "s1" |} {| toString := "k1" |}
           eq_refl);
    [discriminate|reflexivity|reflexivity|reflexivity|reflexivity|reflexivity].
Defined.

Lemma missing_reference_throws_witness :
  exists e,
    render SampleMore.dangling
           (ProductPage Sample.isValidObjectId Sample.missing_product) =
      (inl e,
       [existT _ connectDB;
        existT _ (Product_findById "0123456789abcdef01234567")]).
Proof.
  apply (missing_reference_throws Sample.isValidObjectId SampleMore.dangling
           Sample.missing_product SampleMore.uncategorised eq_refl);
    [discriminate|reflexivity|reflexivity|left; reflexivity].
Defined.

Lemma connection_failure_throws_witness :
  render SampleMore.offline (ProductPage Sample.isValidObjectId Sample.new_product) =
    (inl "no connection", [existT _ connectDB]).
Proof.
  exact (connection_failure_throws Sample.isValidObjectId SampleMore.offline
           Sample.new_product "no connection" eq_refl).
Defined.

Lemma lookup_failure_throws_witness :
  render SampleMore.flaky
         (ProductPage Sample.isValidObjectId Sample.missing_product) =
    (inl "lookup failed",
     [existT _ connectDB;
      existT _ (Product_findById "0123456789abcdef01234567")]).
Proof.
  apply (lookup_failure_throws Sample.isValidObjectId SampleMore.flaky
           Sample.missing_product "lookup failed" eq_refl);
    [discriminate|reflexivity|reflexivity].
Defined.

Lemma queries_of_a_rendered_page_witness :
  exists lookups errors : list Performed,
    [existT _ connectDB;
     existT _ (Category_find "store-1");
     existT _ (Size_find "store-1");
     existT _ (Color_find "store-1");
     existT _ (console_error "Error fetching product-related data:"
                             "sizes unavailable")] =
      [existT _ connectDB] ++ lookups ++
      [existT _ (Category_find "store-1");
       existT _ (Size_find "store-1");
       existT _ (Color_find "store-1")] ++ errors /\
    (lookups = [] \/ lookups = [existT _ (Product_findById "new")]) /\
    (errors = [] \/
     exists e, errors =
       [existT _ (console_error "Error fetching product-related data:" e)]).
Proof.
  exact (queries_of_a_rendered_page Sample.isValidObjectId Sample.database
           Sample.new_product
           {| initialData := None; categories := []; sizes := []; colors := [] |}
           _ eq_refl).
Defined.

Lemma initial_data_ignores_store_witness :
  initialData
    {| initialData := Some SampleMore.lean_sneaker;
       categories := [lean_category Sample.shoes]; sizes := []; colors := [] |} =
  initialData
    {| initialData := Some SampleMore.lean_sneaker;
       categories := []; sizes := []; colors := [] |}.
Proof.
  exact (initial_data_ignores_store Sample.isValidObjectId SampleMore.stocked
           Sample.missing_product SampleMore.other_store _ _ _ _
           eq_refl eq_refl eq_refl).
Defined.
End ProductPageMoreFacts.

(** ** More on the setup page *)

Module SetUpPageMoreFacts.
Import SetUpPage.

Section Facts.
Variable ModalStore : Type.
Variable isOpen : ModalStore -> bool.
Variable onOpen : ModalStore -> ModalStore.

#[local] Abbreviation effect := (effect ModalStore isOpen onOpen).
#[local] Abbreviation settle := (settle ModalStore isOpen onOpen).

(** X19: the effect of the page cannot loop: whatever the open action
    does to the store, also when it fails to open the modal, the effects
    settle within two renders, and the store is then what one run of the
    effect made of it, so the open action was called once at most. *)
Theorem effect_settles_for_any_store (m : ModalStore) (fuel : nat) :
  2 <= fuel -> settle fuel m = Some (effect m).
Proof.
  intros Hfuel. destruct fuel as [|[|fuel]]; [lia|lia|].
  cbn [SetUpPage.settle].
  destruct (bool_decide (isOpen (effect m) = isOpen m)) eqn:Hsame; [reflexivity|].
  apply bool_decide_eq_false in Hsame.
  assert (Hopen : isOpen (effect m) = true).
  { unfold SetUpPage.effect in *. destruct (isOpen m) eqn:Hm; cbn in *; [done|].
    by destruct (isOpen (onOpen m)). }
  assert (Hfix : effect (effect m) = effect m).
  { unfold SetUpPage.effect at 1. by rewrite Hopen. }
  rewrite Hfix. by rewrite bool_decide_eq_true_2.
Qed.
End Facts.

Lemma effect_settles_for_any_store_witness :
  settle bool Sample.modal_isOpen SampleMore.broken_onOpen 2 false = Some false.
Proof.
  exact (effect_settles_for_any_store bool Sample.modal_isOpen
           SampleMore.broken_onOpen false 2 (le_n 2)).
Defined.
End SetUpPageMoreFacts.

(** ** The billboard form between renders *)

Module AsyncFormFacts.
Import BillboardForm BillboardFormFacts AsyncForm.

Section Facts.
Variable isURL : string -> bool.
Variable initialData : option Billboard.
Variable params : Params.

#[local] Abbreviation step := (step isURL initialData params).
#[local] Abbreviation exec := (exec isURL initialData params).
#[local] Abbreviation astep := (astep isURL initialData params).
#[local] Abbreviation arun := (arun isURL initialData params).
#[local] Abbreviation the_request := (submit_request initialData params).

(** A user event that is followed by the answer of the resolver and by a
    render, from a form at rest, is a step of [BillboardForm.step]. *)
Lemma step_at_rest (ev : UiEvent) (s : Screen) :
  arun [Ui ev; Validated; Render] (rendered s) = rendered (step ev s).
Proof.
  unfold AsyncForm.arun. cbn [fold_left].
  destruct ev as [| |a|fl v|i o]; cbn.
  - unfold Control, handleSubmit. destruct (loading s); [reflexivity|].
    cbn. by destruct (Zod.zodResolver (formSchema isURL) (values s)).
  - by destruct initialData.
  - reflexivity.
  - reflexivity.
  - reflexivity.
Qed.

Lemma submit_call (f : Form) :
  view_loading f = false ->
  astep (Ui SubmitClick) f = handleSubmit_call isURL f.
Proof. cbn. by intros ->. Qed.

Lemma submit_blocked (f : Form) :
  view_loading f = true -> astep (Ui SubmitClick) f = f.
Proof. cbn. by intros ->. Qed.

(** The resolver answers a call whose values satisfy the schema:
    [onSubmit] runs up to its [await], on the state as it is then. *)
Lemma validated_sends (f : Form) (d : JsObject)
    (rest : list (gmap string Zod.Issue + JsObject)) :
  validating f = inr d :: rest ->
  exists k,
    astep Validated f =
      {| screen :=
           with_inflight (inflight (screen f) ++ [(the_request d, k)])
             (logged (Http (the_request d))
                     (do_cmd (SetLoading true) (with_errors ∅ (screen f))));
         view_loading := view_loading f;
         view_open := view_open f;
         validating := rest |}.
Proof.
  intros Hv. cbn. unfold handleSubmit_resume. rewrite Hv.
  destruct (run_onSubmit initialData params d (with_errors ∅ (screen f)))
    as (k & -> & _).
  by exists k.
Qed.

(** One submission from a form at rest, up to the [await] of its
    request. *)
Lemma first_submission (s : Screen) (d : JsObject) :
  loading s = false ->
  Zod.zodResolver (formSchema isURL) (values s) = inr d ->
  exists k,
    arun [Ui SubmitClick; Validated] (rendered s) =
      {| screen :=
           with_inflight (inflight s ++ [(the_request d, k)])
             (logged (Http (the_request d))
                     (do_cmd (SetLoading true) (with_errors ∅ s)));
         view_loading := false;
         view_open := open s;
         validating := [] |}.
Proof.
  intros Hl Hv. unfold AsyncForm.arun. cbn [fold_left].
  rewrite submit_call by exact Hl.
  destruct (validated_sends (handleSubmit_call isURL (rendered s)) d [])
    as (k & ->); [cbn; by rewrite Hv|].
  exists k. cbn. by rewrite Hl.
Qed.

(** Two submissions before the resolver has answered the first. *)
Lemma two_submissions (s : Screen) (d : JsObject) :
  loading s = false ->
  Zod.zodResolver (formSchema isURL) (values s) = inr d ->
  exists k1 k2,
    screen (arun [Ui SubmitClick; Ui SubmitClick; Validated; Validated] (rendered s)) =
      with_inflight (inflight s ++ [(the_request d, k1); (the_request d, k2)])
        (logged (Http (the_request d))
           (do_cmd (SetLoading true)
              (logged (Http (the_request d))
                 (do_cmd (SetLoading true) (with_errors ∅ s))))).
Proof.
  intros Hl Hv. unfold AsyncForm.arun. cbn [fold_left].
  rewrite (submit_call (rendered s)) by exact Hl.
  rewrite (submit_call (handleSubmit_call isURL (rendered s))) by exact Hl.
  destruct (validated_sends
              (handleSubmit_call isURL (handleSubmit_call isURL (rendered s)))
              d [inr d]) as (k1 & ->); [cbn; by rewrite Hv|].
  match goal with
  | |- context [astep Validated ?f] =>
      destruct (validated_sends f d []) as (k2 & ->); [reflexivity|]
  end.
  exists k1, k2. cbn. by rewrite <- app_assoc.
Qed.

End Facts.


End AsyncFormFacts.
